(** * runDockerContainer_1.py: stop, prune and re-run a container image

    A shallow embedding of [run_docker_container] and of the script's
    [__main__] block.  The Docker SDK, [importlib] and [subprocess] are
    external: they are an explicit handler record over a world type, and
    every call the script makes to them is logged in a trace, so that
    statements such as "no run call is issued" can be written down.

    Python values the script handles dynamically keep their shape:
    an argument that may be [None], a [str] or a list of [str] is a
    [pyval]; dictionaries are [gmap]s keyed by strings. *)

From Stdlib Require Import Ascii String.
From stdpp Require Import gmap strings list fin_maps.

(** ** Python strings and values *)

Module Py.

(** [s.split(sep)] for a one-character separator: the tokens between the
    occurrences of [sep]; never the empty list. *)
Fixpoint split (sep : ascii) (s : string) : list string :=
  match s with
  | EmptyString => [EmptyString]
  | String c s' =>
      if Ascii.eqb c sep then EmptyString :: split sep s'
      else match split sep s' with
           | t :: ts => String c t :: ts
           | [] => [String c EmptyString]
           end
  end.

(** [sep in s]. *)
Fixpoint contains (sep : ascii) (s : string) : bool :=
  match s with
  | EmptyString => false
  | String c s' => Ascii.eqb c sep || contains sep s'
  end.

(** The characters of a string, each as a string of length one: what
    iterating over a [str] yields. *)
Fixpoint chars (s : string) : list string :=
  match s with
  | EmptyString => []
  | String c s' => String c EmptyString :: chars s'
  end.

(** An argument of [run_docker_container] as the caller may pass it. *)
Inductive pyval :=
| PyNone
| PyStr (s : string)
| PyList (l : list string).

(** Errors raised by the Docker SDK.  [NotFound] is a subclass of
    [APIError]; [DockerException] stands for every SDK error that is not
    an [APIError]. *)
Inductive sdk_error := NotFound | APIError | DockerException.

(** Exceptions that reach the script. *)
Inductive exn :=
| IndexError
| TypeError
| ValueError
| UnboundLocalError
| OSError
| Sdk (e : sdk_error).

(** What [subprocess.check_call] raises besides [CalledProcessError],
    and no handler of the script catches: ValueError for an argument
    with a NUL byte, OSError when the program cannot be started. *)
Inductive check_call_error := NulByte | CannotStart.

Definition raised (e : check_call_error) : exn :=
  match e with
  | NulByte => ValueError
  | CannotStart => OSError
  end.

Definition is_NotFound (e : exn) : bool :=
  match e with Sdk NotFound => true | _ => false end.

Definition is_APIError (e : exn) : bool :=
  match e with Sdk NotFound | Sdk APIError => true | _ => false end.

(** [for x in v]: [None] is not iterable. *)
Definition iter (v : pyval) : exn + list string :=
  match v with
  | PyNone => inl TypeError
  | PyStr s => inr (chars s)
  | PyList l => inr l
  end.

(** [parts[i]]. *)
Definition index (parts : list string) (i : nat) : exn + string :=
  match nth_error parts i with
  | Some x => inr x
  | None => inl IndexError
  end.

(** [bool(s)] for a string. *)
Definition truthy (s : string) : bool :=
  match s with EmptyString => false | _ => true end.

End Py.

Export Py.

(** ** What the script hands to [client.containers.run] *)

(** A value of the [volumes] dictionary: [{'bind': ..., 'mode': ...}]. *)
Record bind_spec := { bind : string; mode : string }.

(** [params] once the conversion has stored the three dictionaries back
    (lines 97, 115 and 126): the keywords [**params] of the run call. *)
Record run_kwargs := {
  kw_name : option string;
  kw_ports : gmap string string;
  kw_volumes : gmap string bind_spec;
  kw_environment : gmap string string
}.

(** A container object of the SDK. *)
Record container := { id : string; short_id : string }.

(** ** Calls to the outside, and the trace *)

Inductive event :=
| EvImport
| EvPipInstall
| EvFromEnv
| EvList (image : string)
| EvStop (c : container)
| EvPrune
| EvTestDir (path : string)
| EvPull (image : string)
| EvRun (image : string) (detach : bool) (kw : run_kwargs).

Definition is_list (e : event) : bool :=
  match e with EvList _ => true | _ => false end.
Definition is_stop (e : event) : bool :=
  match e with EvStop _ => true | _ => false end.
Definition is_prune (e : event) : bool :=
  match e with EvPrune => true | _ => false end.
Definition is_pull (e : event) : bool :=
  match e with EvPull _ => true | _ => false end.
Definition is_run (e : event) : bool :=
  match e with EvRun _ _ _ => true | _ => false end.

(** Number of events of a kind in a trace. *)
Definition calls (p : event -> bool) (tr : list event) : nat :=
  length (filter (fun e => p e = true) tr).

(** The return statement through which a call of [run_docker_container]
    ends; each one prints its own message. *)
Inductive exit :=
| ExitInstallError            (* line 63 *)
| ExitDrainError              (* line 86 *)
| ExitVolumeMissing (host_path : string)   (* line 113 *)
| ExitPullError               (* line 136 *)
| ExitRunning (short : string)             (* line 145 *)
| ExitRunError.               (* line 148, end of the function *)

(** How a statement ends: normally, by [return], or by an exception. *)
Inductive res (A : Type) :=
| Ret (a : A)
| Return (x : exit)
| Raise (e : exn).
Arguments Ret {A} a.
Arguments Return {A} x.
Arguments Raise {A} e.

(** The SDK and the host, as the script sees them.  [W] is the state of
    the outside world (daemon, file system, Python installation).  The
    import succeeds or raises ImportError; a [check_call] returns,
    raises the CalledProcessError the script catches around it, or
    raises an error the script does not catch; an SDK call returns or
    raises an SDK error. *)
Record runtime (W : Type) := {
  (* importlib.import_module('docker'): false when it raises ImportError *)
  import_docker : W -> bool * W;
  (* subprocess.check_call(['pip','install','docker']): false when it
     raises CalledProcessError *)
  pip_install : W -> (check_call_error + bool) * W;
  (* subprocess.check_call(['test','-d',path]): false when it raises
     CalledProcessError *)
  test_d : string -> W -> (check_call_error + bool) * W;
  from_env : W -> (sdk_error + unit) * W;
  containers_list : string -> W -> (sdk_error + list container) * W;
  container_stop : container -> W -> (sdk_error + unit) * W;
  containers_prune : W -> (sdk_error + unit) * W;
  images_pull : string -> W -> (sdk_error + unit) * W;
  containers_run : string -> bool -> run_kwargs -> W -> (sdk_error + container) * W
}.
Arguments import_docker {W}.
Arguments pip_install {W}.
Arguments test_d {W}.
Arguments from_env {W}.
Arguments containers_list {W}.
Arguments container_stop {W}.
Arguments containers_prune {W}.
Arguments images_pull {W}.
Arguments containers_run {W}.

(** ** The monad of the script: world and trace threaded through *)

Section Script.

Context {W : Type} (rt : runtime W).

Definition M (A : Type) : Type := W * list event -> res A * (W * list event).

Definition ret {A} (a : A) : M A := fun s => (Ret a, s).
Definition raise {A} (e : exn) : M A := fun s => (Raise e, s).
Definition return_ {A} (x : exit) : M A := fun s => (Return x, s).

Definition bindM {A B} (c : M A) (k : A -> M B) : M B :=
  fun s =>
    match c s with
    | (Ret a, s') => k a s'
    | (Return x, s') => (Return x, s')
    | (Raise e, s') => (Raise e, s')
    end.

(** [try: c except ...: h]; [h] re-raises what no clause matches. *)
Definition try_except {A} (c : M A) (h : exn -> M A) : M A :=
  fun s =>
    match c s with
    | (Raise e, s') => h e s'
    | r => r
    end.

(** A pure computation that may raise. *)
Definition lift {A} (r : exn + A) : M A :=
  match r with
  | inl e => raise e
  | inr a => ret a
  end.

(** A host call with a boolean answer, logged. *)
Definition host (ev : event) (f : W -> bool * W) : M bool :=
  fun '(w, tr) => let '(b, w') := f w in (Ret b, (w', tr ++ [ev])).

(** A [subprocess.check_call], logged: true when it returns, false when
    it raises CalledProcessError; any other error is raised. *)
Definition check_call (ev : event) (f : W -> (check_call_error + bool) * W)
  : M bool :=
  fun '(w, tr) =>
    match f w with
    | (inr b, w') => (Ret b, (w', tr ++ [ev]))
    | (inl e, w') => (Raise (raised e), (w', tr ++ [ev]))
    end.

(** An SDK call, logged; an SDK error is raised as an exception. *)
Definition sdk {A} (ev : event) (f : W -> (sdk_error + A) * W) : M A :=
  fun '(w, tr) =>
    match f w with
    | (inr a, w') => (Ret a, (w', tr ++ [ev]))
    | (inl e, w') => (Raise (Sdk e), (w', tr ++ [ev]))
    end.

(** [for x in l: body x]. *)
Fixpoint for_each {A} (l : list A) (body : A -> M unit) : M unit :=
  match l with
  | [] => ret tt
  | x :: l' => bindM (body x) (fun _ => for_each l' body)
  end.

(** [for x in l: acc = body x acc], for the loops that fill a dictionary. *)
Fixpoint for_fold {A S} (l : list A) (body : A -> S -> M S) (acc : S) : M S :=
  match l with
  | [] => ret acc
  | x :: l' => bindM (body x acc) (for_fold l' body)
  end.

End Script.

Arguments ret {W A} a.
Arguments raise {W A} e.
Arguments return_ {W A} x.

Notation "'do' x <- c ;; k" := (bindM c (fun x => k))
  (at level 10, x name, c at level 99, k at level 200).
Notation "'do_' c ;; k" := (bindM c (fun _ => k))
  (at level 10, c at level 99, k at level 200).

(** ** The conversion loops (lines 88-126) *)

(** A loop over [l] that updates an accumulator and may raise. *)
Fixpoint fold_exn {A S} (body : A -> S -> exn + S) (l : list A) (acc : S)
  : exn + S :=
  match l with
  | [] => inr acc
  | x :: l' =>
      match body x acc with
      | inl e => inl e
      | inr acc' => fold_exn body l' acc'
      end
  end.

(** Lines 92-95: one port string. *)
Definition port_step (protocol : string) (port : string)
    (ports_dict : gmap string string) : exn + gmap string string :=
  let ports := split ":" port in
  match index ports 0 with
  | inl e => inl e
  | inr host_ports =>
      match index ports 1 with
      | inl e => inl e
      | inr container_ports =>
          inr (<[container_ports +:+ "/" +:+ protocol := host_ports]> ports_dict)
      end
  end.

(** Lines 90-95: [ports_dict] after the loop over [params['ports']]. *)
Definition convert_ports (protocol : string) (ports : pyval)
  : exn + gmap string string :=
  match iter ports with
  | inl e => inl e
  | inr l => fold_exn (port_step protocol) l ∅
  end.

(** Lines 121-124: one environment string. *)
Definition env_step (env : string) (environment_dict : gmap string string)
  : exn + gmap string string :=
  let parts := split "=" env in
  match index parts 0 with
  | inl e => inl e
  | inr var_name =>
      match index parts 1 with
      | inl e => inl e
      | inr var_value => inr (<[var_name := var_value]> environment_dict)
      end
  end.

(** Lines 119-124: [environment_dict] after the loop over
    [params['environment']]. *)
Definition convert_environment (environment : pyval)
  : exn + gmap string string :=
  match iter environment with
  | inl e => inl e
  | inr l => fold_exn env_step l ∅
  end.

(** ** [run_docker_container] *)

(** The dictionary [params]; its keys are fixed, so it is a record.  The
    tests ['ports' in params], ['volumes' in params] and
    ['environment' in params] of lines 89, 99 and 118 are always true. *)
Record params := {
  p_name : option string;
  p_protocol : string;
  p_ports : pyval;
  p_volumes : pyval;
  p_environment : pyval
}.

(** Lines 26-32. *)
Definition default_params (name : option string) : params :=
  {| p_name := name;
     p_protocol := "tcp";
     p_ports := PyList [];
     p_volumes := PyList [];
     p_environment := PyList [] |}.

(** Lines 35-37: the copy, with [ports] and [volumes] overwritten. *)
Definition merge_params (d : params) (ports volumes : pyval) : params :=
  {| p_name := p_name d;
     p_protocol := p_protocol d;
     p_ports := ports;
     p_volumes := volumes;
     p_environment := p_environment d |}.

Section Program.

Context {W : Type} (rt : runtime W).

(** Lines 55-66: import the SDK (installing it when missing) and build
    the client.  When the import fails and the installation succeeds,
    the local name [docker] is still unbound at line 66. *)
Definition load_docker : M (W:=W) unit :=
  do ok <- host EvImport (import_docker rt) ;;
  if ok then sdk EvFromEnv (from_env rt)
  else
    do installed <- check_call EvPipInstall (pip_install rt) ;;
    if installed then raise UnboundLocalError
    else return_ ExitInstallError.

(** Lines 76-77. *)
Definition stop_all (runningContainers : list container) : M (W:=W) unit :=
  for_each runningContainers
    (fun container => sdk (EvStop container) (container_stop rt container)).

(** Lines 70-80: the body of the [try]. *)
Definition drain_try (image_name : string) : M (W:=W) unit :=
  do runningContainers <-
     sdk (EvList image_name) (containers_list rt image_name) ;;
  match runningContainers with
  | [] => ret tt
  | _ => do_ stop_all runningContainers ;;
         sdk EvPrune (containers_prune rt)
  end.

(** Lines 82-86: the two handlers, NotFound first. *)
Definition drain_except (e : exn) : M (W:=W) unit :=
  if is_NotFound e then ret tt
  else if is_APIError e then return_ ExitDrainError
  else raise e.

(** Lines 69-86: stop and prune the running containers of the image. *)
Definition drain (image_name : string) : M (W:=W) unit :=
  try_except (drain_try image_name) drain_except.

(** Lines 103-114: one volume string. *)
Definition volume_step (clean_host_volume_dirs : bool) (volume : string)
    (volumes_dict : gmap string bind_spec) : M (W:=W) (gmap string bind_spec) :=
  let parts := split ":" volume in
  do host_path <- lift (index parts 0) ;;
  do container_path <- lift (index parts 1) ;;
  do_ (if clean_host_volume_dirs then
         do ok <- check_call (EvTestDir host_path) (test_d rt host_path) ;;
         if ok then ret tt else return_ (ExitVolumeMissing host_path)
       else ret tt) ;;
  ret (<[host_path := {| bind := container_path; mode := "rw" |}]> volumes_dict).

(** Lines 100-114: [volumes_dict] after the loop over [params['volumes']]. *)
Definition convert_volumes (clean_host_volume_dirs : bool) (volumes : pyval)
  : M (W:=W) (gmap string bind_spec) :=
  do l <- lift (iter volumes) ;;
  for_fold l (volume_step clean_host_volume_dirs) ∅.

(** Lines 130-136. *)
Definition pull (image_name : string) : M (W:=W) unit :=
  try_except
    (sdk (EvPull image_name) (images_pull rt image_name))
    (fun e => if is_APIError e then return_ ExitPullError else raise e).

(** Lines 138-148.  A container object is truthy, so line 144 always
    prints; after the handler of line 146 the function ends. *)
Definition start (image_name : string) (kw : run_kwargs) : M (W:=W) exit :=
  do_ try_except
        (do container <-
            sdk (EvRun image_name true kw)
                (containers_run rt image_name true kw) ;;
         return_ (ExitRunning (short_id container)))
        (fun e => if is_APIError e then ret tt else raise e) ;;
  ret ExitRunError.

(** Lines 88-126: the three conversions, each result stored back in
    [params].  The protocol is the one popped from [params] at line 38. *)
Definition convert_params (protocol : string) (clean_host_volume_dirs : bool)
    (params : params) : M (W:=W) run_kwargs :=
  do ports_dict <- lift (convert_ports protocol (p_ports params)) ;;
  do volumes_dict <- convert_volumes clean_host_volume_dirs (p_volumes params) ;;
  do environment_dict <- lift (convert_environment (p_environment params)) ;;
  ret {| kw_name := p_name params;
         kw_ports := ports_dict;
         kw_volumes := volumes_dict;
         kw_environment := environment_dict |}.

(** The body of the function, lines 26-148. *)
Definition body (image_name : string) (name : option string)
    (protocol : string) (ports volumes : pyval)
    (clean_host_volume_dirs : bool) (environment : pyval) : M (W:=W) exit :=
  let params := merge_params (default_params name) ports volumes in
  let protocol := p_protocol params in
  do_ load_docker ;;
  do_ drain image_name ;;
  do params <- convert_params protocol clean_host_volume_dirs params ;;
  do_ pull image_name ;;
  start image_name params.

(** A call: a [return] inside the body ends the call, not the caller. *)
Definition call (f : M (W:=W) exit) : M (W:=W) exit :=
  fun s =>
    match f s with
    | (Return x, s') => (Ret x, s')
    | r => r
    end.

Definition run_docker_container (image_name : string) (name : option string)
    (protocol : string) (ports volumes : pyval)
    (clean_host_volume_dirs : bool) (environment : pyval) : M (W:=W) exit :=
  call (body image_name name protocol ports volumes
             clean_host_volume_dirs environment).

End Program.

(** ** The [__main__] block (lines 150-165) *)

(** The namespace [parse_known_args] returns.  An option given with
    [nargs='+'] and no default is [None] when the flag is absent. *)
Module args.
Record t := {
  image_name : string;
  name : option string;
  protocol : string;
  port : option (list string);
  volume : option (list string);
  environment : option (list string);
  clean_host_volume_dirs : bool
}.
End args.

Definition of_option (o : option (list string)) : pyval :=
  match o with
  | None => PyNone
  | Some l => PyList l
  end.

(** [k, v = arg.split('=')]: exactly two tokens, or ValueError. *)
Definition unknown_step (arg : string) (d : gmap string string)
  : exn + gmap string string :=
  match split "=" arg with
  | [k; v] => inr (<[k := v]> d)
  | _ => inl ValueError
  end.

(** Line 162. *)
Definition unknown_args_dict (unknown_args : list string)
  : exn + gmap string string :=
  fold_exn unknown_step unknown_args ∅.

(** The parameters of [run_docker_container] that line 163 does not pass
    itself; any other key in [**unknown_args_dict] is a TypeError
    (a second value for a parameter, or an unexpected keyword). *)
Definition free_keyword (k : string) : bool :=
  String.eqb k "clean_host_volume_dirs" || String.eqb k "environment".

(** Binding [**unknown_args_dict] at line 163: the values of
    [clean_host_volume_dirs] (as the truth value the function tests) and
    of [environment], with the defaults of the signature. *)
Definition bind_kwargs (d : gmap string string) : exn + (bool * pyval) :=
  if forallb free_keyword (map fst (map_to_list d)) then
    inr (match d !! "clean_host_volume_dirs" with
         | Some v => truthy v
         | None => false
         end,
         match d !! "environment" with
         | Some v => PyStr v
         | None => PyList []
         end)
  else inl TypeError.

Section Main.

Context {W : Type} (rt : runtime W).

(** Lines 162-165: the function is called twice, the second time
    without the extra keywords. *)
Definition main (a : args.t) (unknown_args : list string)
  : M (W:=W) (exit * exit) :=
  do d <- lift (unknown_args_dict unknown_args) ;;
  do kw <- lift (bind_kwargs d) ;;
  do first <-
     run_docker_container rt (args.image_name a) (args.name a)
       (args.protocol a) (of_option (args.port a))
       (of_option (args.volume a)) (fst kw) (snd kw) ;;
  do second <-
     run_docker_container rt (args.image_name a) (args.name a)
       (args.protocol a) (of_option (args.port a))
       (of_option (args.volume a)) false (PyList []) ;;
  ret (first, second).

End Main.

(** ** A daemon to run the script against

    A small in-memory stand-in for the Docker daemon and the host, used
    for the concrete executions below. *)
Module Fake.

Record world := {
  running : list (container * string);   (* running containers, with image *)
  stopped : list (container * string);
  fresh : list container;                (* what the next run calls create *)
  stuck : list string;                   (* ids whose stop raises APIError *)
  gone : list string                     (* ids whose stop raises NotFound *)
}.

(** The directories of the host; the script and the daemon leave them
    as they are. *)
Definition host_dirs : list string := ["/srv/www"%string].

Definition mem (x : string) (l : list string) : bool :=
  existsb (String.eqb x) l.

Definition list_ (image : string) (w : world)
  : (sdk_error + list container) * world :=
  (inr (map fst (filter (fun ci => String.eqb (snd ci) image = true) (running w))), w).

Definition stop_ (c : container) (w : world) : (sdk_error + unit) * world :=
  if mem (id c) (stuck w) then (inl APIError, w)
  else if mem (id c) (gone w) then (inl NotFound, w)
  else
    let hit := fun ci : container * string => String.eqb (id (fst ci)) (id c) in
    (inr tt,
     {| running := filter (fun ci => hit ci = false) (running w);
        stopped := filter (fun ci => hit ci = true) (running w) ++ stopped w;
        fresh := fresh w; stuck := stuck w; gone := gone w |}).

Definition prune_ (w : world) : (sdk_error + unit) * world :=
  (inr tt,
   {| running := running w; stopped := [];
      fresh := fresh w; stuck := stuck w; gone := gone w |}).

Definition run_ (image : string) (detach : bool) (kw : run_kwargs) (w : world)
  : (sdk_error + container) * world :=
  match fresh w with
  | [] => (inl APIError, w)
  | c :: rest =>
      (inr c,
       {| running := running w ++ [(c, image)]; stopped := stopped w;
          fresh := rest; stuck := stuck w; gone := gone w |})
  end.

Definition rt : runtime world :=
  {| import_docker := fun w => (true, w);
     pip_install := fun w => (inr true, w);
     test_d := fun path w => (inr (mem path host_dirs), w);
     from_env := fun w => (inr tt, w);
     containers_list := list_;
     container_stop := stop_;
     containers_prune := prune_;
     images_pull := fun _ w => (inr tt, w);
     containers_run := run_ |}.

Definition c1 : container := {| id := "1111aaaa2222bbbb"; short_id := "1111aaaa2222" |}.
Definition c2 : container := {| id := "3333cccc4444dddd"; short_id := "3333cccc4444" |}.

(** No container at all; two containers can be created. *)
Definition idle : world :=
  {| running := []; stopped := []; fresh := [c1; c2];
     stuck := []; gone := [] |}.

(** Two containers of nginx are running; stopping the first one fails. *)
Definition busy : world :=
  {| running := [(c1, "nginx"%string); (c2, "nginx"%string)]; stopped := [];
     fresh := []; stuck := [id c1]; gone := [] |}.

(** The same two containers, the stuck one listed last. *)
Definition busy_last : world :=
  {| running := [(c2, "nginx"%string); (c1, "nginx"%string)]; stopped := [];
     fresh := []; stuck := [id c1]; gone := [] |}.

(** One container of nginx is running and stops when asked. *)
Definition serving : world :=
  {| running := [(c1, "nginx"%string)]; stopped := [];
     fresh := [c2]; stuck := []; gone := [] |}.

End Fake.


(** * Vocabulary of the statements *)

(** First and second token of a mapping string. *)
Definition token0 (sep : ascii) (s : string) : string :=
  match split sep s with h :: _ => h | [] => EmptyString end.
Definition token1 (sep : ascii) (s : string) : string :=
  match split sep s with _ :: c :: _ => c | _ => EmptyString end.

(** The dictionary the port loop builds when every step succeeds. *)
Definition ports_of (protocol : string) (l : list string) : gmap string string :=
  foldl (fun d port => <[token1 ":" port +:+ "/" +:+ protocol := token0 ":" port]> d) ∅ l.

Definition env_of (l : list string) : gmap string string :=
  foldl (fun d env => <[token0 "=" env := token1 "=" env]> d) ∅ l.

(** The environment of a run call, when the event is one. *)
Definition run_environment (e : event) : option (gmap string string) :=
  match e with
  | EvRun _ _ kw => Some (kw_environment kw)
  | _ => None
  end.

(** How the handlers of lines 82-86 end the drain for an SDK error. *)
Definition drain_outcome (e : sdk_error) : res unit :=
  match e with
  | NotFound => Ret tt
  | APIError => Return ExitDrainError
  | DockerException => Raise (Sdk DockerException)
  end.

(** A value that can be iterated and yields a string without [':']. *)
Definition malformed (v : pyval) : Prop :=
  exists l, iter v = inr l /\ Exists (fun s => contains ":" s = false) l.

Section Vocabulary.

Context {W : Type} (rt : runtime W).

(** Every run of [c] extends the trace by events that satisfy [P]. *)
Definition emits {A} (P : event -> Prop) (c : M (W:=W) A) : Prop :=
  forall w tr, exists new, snd (snd (c (w, tr))) = tr ++ new /\ Forall P new.

(** Events of the lines before the pull: inspection, draining and the
    directory tests of the conversion. *)
Definition early (e : event) : Prop :=
  is_pull e = false /\ is_run e = false.

(** Continue a call after a step: a [return] or an exception of the step
    ends the call. *)
Definition after {A} (r : res A * (W * list event))
    (k : A -> W * list event -> res exit * (W * list event))
  : res exit * (W * list event) :=
  match r with
  | (Ret a, s) => k a s
  | (Return x, s) => (Ret x, s)
  | (Raise e, s) => (Raise e, s)
  end.

End Vocabulary.

(** The namespace of a command line for the image nginx. *)
Definition nginx (port volume : option (list string)) : args.t :=
  {| args.image_name := "nginx";
     args.name := None;
     args.protocol := "tcp";
     args.port := port;
     args.volume := volume;
     args.environment := None;
     args.clean_host_volume_dirs := false |}.

(** A daemon and a host with faults switched on: the SDK module may be
    missing, and prune, pull and run may raise a given SDK error.  The
    rest behaves as [Fake.rt]. *)
Module Faulty.

Definition rt (import_ok pip_ok : bool)
    (prune_error pull_error run_error : option sdk_error)
  : runtime Fake.world :=
  {| import_docker := fun w => (import_ok, w);
     pip_install := fun w => (inr pip_ok, w);
     test_d := test_d Fake.rt;
     from_env := from_env Fake.rt;
     containers_list := Fake.list_;
     container_stop := Fake.stop_;
     containers_prune := fun w =>
       match prune_error with
       | Some e => (inl e, w)
       | None => Fake.prune_ w
       end;
     images_pull := fun _ w =>
       match pull_error with
       | Some e => (inl e, w)
       | None => (inr tt, w)
       end;
     containers_run := fun image detach kw w =>
       match run_error with
       | Some e => (inl e, w)
       | None => Fake.run_ image detach kw w
       end |}.

End Faulty.

Definition is_test (e : event) : bool :=
  match e with EvTestDir _ => true | _ => false end.

(** How line 134 (and line 146) treats an SDK error: an APIError is
    handled, anything else goes on. *)
Definition handled (e : sdk_error) : bool :=
  match e with DockerException => false | _ => true end.

(** The result of the pull step for the answer of the daemon. *)
Definition pull_outcome (a : sdk_error + unit) : res unit :=
  match a with
  | inr _ => Ret tt
  | inl e => if handled e then Return ExitPullError else Raise (Sdk e)
  end.

(** The result of the call for the answer of the daemon to the run call. *)
Definition start_outcome (a : sdk_error + container) : res exit :=
  match a with
  | inr c => Ret (ExitRunning (short_id c))
  | inl e => if handled e then Ret ExitRunError else Raise (Sdk e)
  end.

(** The three shapes of the events of one call: it ends before the
    pull, at the pull, or at the run call. *)
Inductive call_shape (image : string) : list event -> res exit -> Prop :=
| shape_before pre r :
    Forall early pre ->
    (forall short, r <> Ret (ExitRunning short)) ->
    r <> Ret ExitPullError -> r <> Ret ExitRunError ->
    call_shape image pre r
| shape_pull pre r :
    Forall early pre ->
    r = Ret ExitPullError \/ r = Raise (Sdk DockerException) ->
    call_shape image (pre ++ [EvPull image]) r
| shape_run pre kw r :
    Forall early pre ->
    (exists short, r = Ret (ExitRunning short)) \/
    r = Ret ExitRunError \/ r = Raise (Sdk DockerException) ->
    call_shape image (pre ++ [EvPull image; EvRun image true kw]) r.

(** An extra command-line argument that line 162 cannot unpack into a
    key and a value. *)
Definition unpackable (arg : string) : bool :=
  match split "=" arg with
  | [_; _] => true
  | _ => false
  end.

(** The dictionary the volume loop builds when every step succeeds. *)
Definition volumes_of (l : list string) : gmap string bind_spec :=
  foldl (fun d volume =>
           <[token0 ":" volume :=
               {| bind := token1 ":" volume; mode := "rw" |}]> d) ∅ l.

(** What a run call may carry, for the arguments of the call. *)
Definition run_as (image : string) (name : option string) (e : event) : Prop :=
  forall image' detach kw,
    e = EvRun image' detach kw ->
    image' = image /\ detach = true /\ kw_name kw = name /\
    map_Forall (fun _ b => mode b = "rw"%string) (kw_volumes kw).

(** A directory test, when there is one, is asked for and is the test
    of the host path of one of the volume strings. *)
Definition tests_volume_of (clean : bool) (volumes : pyval) (e : event) : Prop :=
  forall path,
    e = EvTestDir path ->
    clean = true /\
    exists l volume,
      iter volumes = inr l /\ In volume l /\ path = token0 ":" volume.

(** * Properties *)

(** ** [split] *)

Section Split.

Variable sep : ascii.

Lemma split_not_nil (s : string) : split sep s <> [].
Proof.
  destruct s as [|c s]; simpl; [discriminate|].
  destruct (Ascii.eqb c sep); [discriminate|].
  destruct (split sep s); discriminate.
Qed.

Lemma split_without (s : string) :
  contains sep s = false -> split sep s = [s].
Proof.
  induction s as [|c s IH]; simpl; [reflexivity|].
  destruct (Ascii.eqb c sep); simpl; [discriminate|].
  intros H. rewrite (IH H). reflexivity.
Qed.

Lemma split_with (s : string) :
  contains sep s = true ->
  exists h c rest, split sep s = h :: c :: rest.
Proof.
  induction s as [|c s IH]; simpl; [discriminate|].
  destruct (Ascii.eqb c sep); simpl.
  - intros _. destruct (split sep s) as [|t ts] eqn:E.
    + destruct (split_not_nil _ E).
    + eauto.
  - intros H. destruct (IH H) as (h & c' & rest & ->). eauto.
Qed.

(** The token before the first separator, and what follows it. *)
Lemma split_app (h t : string) :
  contains sep h = false ->
  split sep (h +:+ String sep t) = h :: split sep t.
Proof.
  induction h as [|c h IH]; simpl.
  - intros _. rewrite Ascii.eqb_refl. reflexivity.
  - destruct (Ascii.eqb c sep); simpl; [discriminate|].
    intros H. rewrite (IH H). reflexivity.
Qed.

Lemma split_pair (h c : string) :
  contains sep h = false -> contains sep c = false ->
  split sep (h +:+ String sep c) = [h; c].
Proof.
  intros Hh Hc. rewrite (split_app _ _ Hh), (split_without _ Hc). reflexivity.
Qed.

End Split.

(** ** The conversion loops *)

Lemma port_step_with (protocol port : string) (d : gmap string string) :
  contains ":" port = true ->
  port_step protocol port d =
  inr (<[token1 ":" port +:+ "/" +:+ protocol := token0 ":" port]> d).
Proof.
  intros H. unfold port_step, token0, token1.
  destruct (split_with _ _ H) as (h & c & rest & ->). reflexivity.
Qed.

Lemma port_step_without (protocol port : string) (d : gmap string string) :
  contains ":" port = false -> port_step protocol port d = inl IndexError.
Proof.
  intros H. unfold port_step. rewrite (split_without _ _ H). reflexivity.
Qed.

Lemma env_step_with (env : string) (d : gmap string string) :
  contains "=" env = true ->
  env_step env d = inr (<[token0 "=" env := token1 "=" env]> d).
Proof.
  intros H. unfold env_step, token0, token1.
  destruct (split_with _ _ H) as (h & c & rest & ->). reflexivity.
Qed.

Lemma env_step_without (env : string) (d : gmap string string) :
  contains "=" env = false -> env_step env d = inl IndexError.
Proof.
  intros H. unfold env_step. rewrite (split_without _ _ H). reflexivity.
Qed.

(** A loop raises what its first failing step raises. *)
Lemma fold_exn_first_error {A S} (body : A -> S -> exn + S)
    (P : A -> Prop) (e : exn) (l : list A) :
  (forall x acc, P x \/ body x acc = inl e) ->
  (forall x acc, P x -> exists acc', body x acc = inr acc') ->
  Exists (fun x => ~ P x) l ->
  forall acc, fold_exn body l acc = inl e.
Proof.
  intros Hdec Hok. induction 1 as [x l Hx|x l _ IH]; intros acc; simpl.
  - destruct (Hdec x acc) as [HP| ->]; [contradiction|reflexivity].
  - destruct (Hdec x acc) as [HP| ->]; [|reflexivity].
    destruct (Hok x acc HP) as [acc' ->]. apply IH.
Qed.

(** ** Traces *)

Section Traces.

Context {W : Type}.

Lemma emits_ret {A} P (a : A) : emits (W:=W) P (ret a).
Proof. intros w tr. exists []. simpl. rewrite app_nil_r. auto. Qed.

Lemma emits_raise {A} P e : emits (W:=W) P (raise (A:=A) e).
Proof. intros w tr. exists []. simpl. rewrite app_nil_r. auto. Qed.

Lemma emits_return {A} P x : emits (W:=W) P (return_ (A:=A) x).
Proof. intros w tr. exists []. simpl. rewrite app_nil_r. auto. Qed.

Lemma emits_lift {A} P (r : exn + A) : emits (W:=W) P (lift r).
Proof. destruct r; [apply emits_raise|apply emits_ret]. Qed.

Lemma emits_host P ev (f : W -> bool * W) : P ev -> emits P (host ev f).
Proof.
  intros H w tr. exists [ev]. unfold host. destruct (f w). simpl. auto.
Qed.

Lemma emits_check_call P ev (f : W -> (check_call_error + bool) * W) :
  P ev -> emits P (check_call ev f).
Proof.
  intros H w tr. exists [ev]. unfold check_call.
  destruct (f w) as [[e|b] w']; simpl; auto.
Qed.

Lemma emits_sdk {A} P ev (f : W -> (sdk_error + A) * W) :
  P ev -> emits P (sdk ev f).
Proof.
  intros H w tr. exists [ev]. unfold sdk. destruct (f w) as [[e|a] w']; simpl; auto.
Qed.

Lemma bindM_sdk {A B} ev (f : W -> (sdk_error + A) * W) (k : A -> M B) w tr :
  bindM (sdk ev f) k (w, tr) =
  match f w with
  | (inr a, w') => k a (w', tr ++ [ev])
  | (inl e, w') => (Raise (Sdk e), (w', tr ++ [ev]))
  end.
Proof. unfold bindM, sdk. destruct (f w) as [[e|a] w']; reflexivity. Qed.

(** The continuation only matters for the values [c] can return. *)
Lemma emits_bind {A B} P (c : M (W:=W) A) (k : A -> M B) :
  emits P c ->
  (forall a, (exists s s', c s = (Ret a, s')) -> emits P (k a)) ->
  emits P (bindM c k).
Proof.
  intros Hc Hk w tr. unfold bindM.
  destruct (Hc w tr) as (n1 & E1 & F1).
  destruct (c (w, tr)) as [[a|x|e] [w1 tr1]] eqn:Ec; simpl in E1; subst tr1.
  - destruct (Hk a (ex_intro _ _ (ex_intro _ _ Ec)) w1 (tr ++ n1)) as (n2 & E2 & F2).
    exists (n1 ++ n2). rewrite E2, app_assoc. split; [reflexivity|].
    apply Forall_app; auto.
  - exists n1. auto.
  - exists n1. auto.
Qed.

Lemma emits_try {A} P (c : M (W:=W) A) (h : exn -> M A) :
  emits P c -> (forall e, emits P (h e)) -> emits P (try_except c h).
Proof.
  intros Hc Hh w tr. unfold try_except.
  destruct (Hc w tr) as (n1 & E1 & F1).
  destruct (c (w, tr)) as [[a|x|e] [w1 tr1]] eqn:Ec; simpl in E1; subst tr1.
  - exists n1. auto.
  - exists n1. auto.
  - destruct (Hh e w1 (tr ++ n1)) as (n2 & E2 & F2).
    exists (n1 ++ n2). rewrite E2, app_assoc. split; [reflexivity|].
    apply Forall_app; auto.
Qed.

Lemma emits_for_each {A} P (l : list A) (f : A -> M (W:=W) unit) :
  (forall x, emits P (f x)) -> emits P (for_each l f).
Proof.
  intros Hf. induction l as [|x l IH]; simpl.
  - apply emits_ret.
  - apply emits_bind; auto.
Qed.

Lemma emits_for_fold {A S} P (l : list A) (f : A -> S -> M (W:=W) S) :
  (forall x acc, emits P (f x acc)) -> forall acc, emits P (for_fold l f acc).
Proof.
  intros Hf. induction l as [|x l IH]; intros acc; simpl.
  - apply emits_ret.
  - apply emits_bind; auto.
Qed.

Lemma emits_weaken {A} (P Q : event -> Prop) (c : M (W:=W) A) :
  (forall e, P e -> Q e) -> emits P c -> emits Q c.
Proof.
  intros HPQ Hc w tr. destruct (Hc w tr) as (n & E & F).
  exists n. split; [exact E|]. eapply Forall_impl; eauto.
Qed.

End Traces.

(** ** The steps of [run_docker_container] *)

Section Steps.

Context {W : Type} (rt : runtime W).

Lemma emits_call (P : event -> Prop) (c : M exit) :
  emits P c -> emits P (call (W:=W) c).
Proof.
  intros Hc w tr. destruct (Hc w tr) as (n & E & F). exists n.
  unfold call. destruct (c (w, tr)) as [[a|x|e] s']; simpl in *; auto.
Qed.

Lemma emits_load_docker : emits early (load_docker rt).
Proof.
  unfold load_docker. apply emits_bind.
  - apply emits_host; split; reflexivity.
  - intros [|] _.
    + apply emits_sdk; split; reflexivity.
    + apply emits_bind.
      * apply emits_check_call; split; reflexivity.
      * intros [|] _; [apply emits_raise|apply emits_return].
Qed.

Lemma emits_stop_all cs : emits early (stop_all rt cs).
Proof.
  apply emits_for_each. intros c. apply emits_sdk; split; reflexivity.
Qed.

Lemma emits_drain image : emits early (drain rt image).
Proof.
  unfold drain, drain_try, drain_except. apply emits_try.
  - apply emits_bind.
    + apply emits_sdk; split; reflexivity.
    + intros [|c cs] _; [apply emits_ret|].
      apply emits_bind; [apply emits_stop_all|].
      intros _ _. apply emits_sdk; split; reflexivity.
  - intros e. destruct (is_NotFound e); [apply emits_ret|].
    destruct (is_APIError e); [apply emits_return|apply emits_raise].
Qed.

Lemma emits_volume_step clean v d : emits early (volume_step rt clean v d).
Proof.
  unfold volume_step.
  apply emits_bind; [apply emits_lift|]. intros h _.
  apply emits_bind; [apply emits_lift|]. intros c _.
  apply emits_bind; [|intros _ _; apply emits_ret].
  destruct clean; [|apply emits_ret].
  apply emits_bind.
  - apply emits_check_call; split; reflexivity.
  - intros [|] _; [apply emits_ret|apply emits_return].
Qed.

Lemma emits_convert_volumes clean v : emits early (convert_volumes rt clean v).
Proof.
  unfold convert_volumes. apply emits_bind; [apply emits_lift|].
  intros l _. apply emits_for_fold. intros x acc. apply emits_volume_step.
Qed.

Lemma emits_convert_params protocol clean p :
  emits early (convert_params rt protocol clean p).
Proof.
  unfold convert_params.
  apply emits_bind; [apply emits_lift|]. intros pd _.
  apply emits_bind; [apply emits_convert_volumes|]. intros vd _.
  apply emits_bind; [apply emits_lift|]. intros ed _.
  apply emits_ret.
Qed.

End Steps.

(** ** One call, step by step *)

Section Call.

Context {W : Type} (rt : runtime W).

Lemma run_docker_container_steps image name protocol ports volumes clean environment s :
  run_docker_container rt image name protocol ports volumes clean environment s =
  after (load_docker rt s) (fun _ s0 =>
  after (drain rt image s0) (fun _ s1 =>
  after (convert_params rt "tcp" clean
           (merge_params (default_params name) ports volumes) s1) (fun kw s2 =>
  after (pull rt image s2) (fun _ s3 =>
  call (start rt image kw) s3)))).
Proof.
  unfold run_docker_container, call, body, bindM, after. simpl.
  destruct (load_docker rt s) as [[[]|x|e] s0]; try reflexivity.
  destruct (drain rt image s0) as [[[]|x|e] s1]; try reflexivity.
  destruct (convert_params _ _ _ _ s1) as [[kw|x|e] s2]; try reflexivity.
  destruct (pull rt image s2) as [[[]|x|e] s3]; reflexivity.
Qed.

(** What a successful conversion returns. *)
Lemma convert_params_ret protocol clean p s kw s' :
  convert_params rt protocol clean p s = (Ret kw, s') ->
  kw_name kw = p_name p /\
  convert_ports protocol (p_ports p) = inr (kw_ports kw) /\
  convert_environment (p_environment p) = inr (kw_environment kw).
Proof.
  unfold convert_params, bindM, lift.
  destruct (convert_ports protocol (p_ports p)) as [e|pd]; simpl; [discriminate|].
  destruct (convert_volumes rt clean (p_volumes p) s) as [[vd|x|e] s1];
    try discriminate.
  destruct (convert_environment (p_environment p)) as [e|ed]; simpl;
    [discriminate|].
  intros [= <- _]. auto.
Qed.

Lemma emits_pull P image : P (EvPull image) -> emits P (pull rt image).
Proof.
  intros H. unfold pull. apply emits_try.
  - apply emits_sdk, H.
  - intros e. destruct (is_APIError e); [apply emits_return|apply emits_raise].
Qed.

Lemma emits_start P image kw : P (EvRun image true kw) -> emits P (start rt image kw).
Proof.
  intros H. unfold start. apply emits_bind; [|intros _ _; apply emits_ret].
  apply emits_try.
  - apply emits_bind; [apply emits_sdk, H|]. intros c _. apply emits_return.
  - intros e. destruct (is_APIError e); [apply emits_ret|apply emits_raise].
Qed.

(** The events of a call: early ones, one kind of pull, and run calls
    whose keywords come out of the conversion. *)
Lemma emits_run_docker_container (P : event -> Prop)
    image name protocol ports volumes clean environment :
  (forall e, early e -> P e) ->
  (forall kw s s',
      convert_params rt "tcp" clean
        (merge_params (default_params name) ports volumes) s = (Ret kw, s') ->
      P (EvPull image) /\ P (EvRun image true kw)) ->
  emits P (run_docker_container rt image name protocol ports volumes
             clean environment).
Proof.
  intros Hearly Hrun.
  unfold run_docker_container. apply emits_call. unfold body. simpl.
  apply emits_bind.
  { eapply emits_weaken; [exact Hearly|apply emits_load_docker]. }
  intros _ _. apply emits_bind.
  { eapply emits_weaken; [exact Hearly|apply emits_drain]. }
  intros _ _. apply emits_bind.
  { eapply emits_weaken; [exact Hearly|apply emits_convert_params]. }
  intros kw (s & s' & Hkw). destruct (Hrun _ _ _ Hkw) as [Hp Hr].
  apply emits_bind.
  { apply emits_pull, Hp. }
  intros _ _. apply emits_start, Hr.
Qed.

End Call.

(** ** The environment never reaches the container *)

(** C9. Whatever the [environment] argument of [run_docker_container]
    is, the call behaves as with the empty list, and every run call it
    issues carries the empty environment dictionary: line 120 iterates
    over the default [[]] of [default_params], never over the argument. *)
Theorem environment_never_reaches_run :
  forall (W : Type) (rt : runtime W) image name protocol ports volumes
         clean environment (w : W) (tr : list event),
    run_docker_container rt image name protocol ports volumes clean
      environment (w, tr) =
    run_docker_container rt image name protocol ports volumes clean
      (PyList []) (w, tr) /\
    exists new,
      snd (snd (run_docker_container rt image name protocol ports volumes
                  clean environment (w, tr))) = tr ++ new /\
      Forall (fun e => forall d, run_environment e = Some d -> d = ∅) new.
Proof.
  intros. split; [reflexivity|].
  apply (emits_run_docker_container rt
           (fun e => forall d, run_environment e = Some d -> d = ∅)).
  - intros [] [_ Hrun] d; simpl; try discriminate.
  - intros kw s s' Hkw. split; [discriminate|].
    intros d. simpl. intros [= <-].
    apply convert_params_ret in Hkw as (_ & _ & Henv).
    simpl in Henv. injection Henv as <-. reflexivity.
Qed.

(** Neither [--environment] nor [--clean_host_volume_dirs] is handed
    to the function: lines 163 and 165 do not mention them. *)
Lemma main_ignores_environment_flag {W} (rt : runtime W)
    image name protocol port volume env env' clean clean' unknown_args s :
  main rt {| args.image_name := image; args.name := name;
             args.protocol := protocol; args.port := port;
             args.volume := volume; args.environment := env;
             args.clean_host_volume_dirs := clean |} unknown_args s =
  main rt {| args.image_name := image; args.name := name;
             args.protocol := protocol; args.port := port;
             args.volume := volume; args.environment := env';
             args.clean_host_volume_dirs := clean' |} unknown_args s.
Proof. reflexivity. Qed.

(** ** Ports and protocol *)

Lemma fold_exn_port_step protocol (l : list string) :
  Forall (fun port => contains ":" port = true) l ->
  forall d,
    fold_exn (port_step protocol) l d =
    inr (foldl (fun d port =>
                  <[token1 ":" port +:+ "/" +:+ protocol := token0 ":" port]> d) d l).
Proof.
  induction 1 as [|port l Hp _ IH]; intros d; simpl; [reflexivity|].
  rewrite (port_step_with _ _ _ Hp). apply IH.
Qed.

Lemma fold_exn_env_step (l : list string) :
  Forall (fun env => contains "=" env = true) l ->
  forall d,
    fold_exn env_step l d =
    inr (foldl (fun d env => <[token0 "=" env := token1 "=" env]> d) d l).
Proof.
  induction 1 as [|env l He _ IH]; intros d; simpl; [reflexivity|].
  rewrite (env_step_with _ _ He). apply IH.
Qed.

(** A valid port string ["h:c"] adds the key ["c/<protocol>"] with value
    [h]; the protocol is the one handed to the loop. *)
Lemma port_step_valid protocol h c (d : gmap string string) :
  contains ":" h = false -> contains ":" c = false ->
  port_step protocol (h +:+ String ":" c) d =
  inr (<[c +:+ "/" +:+ protocol := h]> d).
Proof.
  intros Hh Hc. unfold port_step. rewrite (split_pair _ _ _ Hh Hc). reflexivity.
Qed.

(** The [protocol] argument does not reach the loop: line 38 replaces it
    by the ['tcp'] of [default_params]. *)
Lemma protocol_argument_ignored {W} (rt : runtime W)
    image name protocol ports volumes clean environment s :
  run_docker_container rt image name protocol ports volumes clean environment s =
  run_docker_container rt image name "tcp" ports volumes clean environment s.
Proof. reflexivity. Qed.

(** C4, evaluated where it fails.  Called with protocol ["udp"] and the
    port ["53:53"], the function asks the daemon for the port key
    ["53/tcp"]: the run call carries [{'53/tcp': '53'}] and no
    ["53/udp"] key. *)
Theorem udp_protocol_runs_as_tcp :
  let out := run_docker_container Fake.rt "nginx" None "udp"
               (PyList ["53:53"%string]) (PyList []) false (PyList [])
               (Fake.idle, []) in
  fst out = Ret (ExitRunning "1111aaaa2222") /\
  snd (snd out) =
    [EvImport; EvFromEnv; EvList "nginx"; EvPull "nginx";
     EvRun "nginx" true
       {| kw_name := None;
          kw_ports := {[ "53/tcp"%string := "53"%string ]};
          kw_volumes := ∅;
          kw_environment := ∅ |}] /\
  ({[ "53/tcp"%string := "53"%string ]} : gmap string string) !! "53/udp"%string = None.
Proof. vm_compute. auto. Qed.

(** ** Environment strings *)

(** With a second ['='] in the string, [parts[1]] is only the text
    between the first two separators. *)
Lemma env_step_second_separator name v rest (d : gmap string string) :
  contains "=" name = false -> contains "=" v = false ->
  env_step (name +:+ String "=" (v +:+ String "=" rest)) d =
  inr (<[name := v]> d).
Proof.
  intros Hn Hv. unfold env_step.
  rewrite (split_app _ _ _ Hn), (split_app _ _ _ Hv).
  destruct (split "=" rest); reflexivity.
Qed.

(** C2, evaluated where it fails.  The loop of lines 120-124 binds
    [KEY] to ["a"] for the string ["KEY=a=b"], not to ["a=b"]; and the
    function hands no environment at all to the run call. *)
Theorem env_value_cut_at_second_equals :
  convert_environment (PyList ["KEY=a=b"%string]) =
    inr {[ "KEY"%string := "a"%string ]} /\
  ({[ "KEY"%string := "a"%string ]} : gmap string string) !! "KEY"%string
    <> Some "a=b"%string /\
  snd (snd (run_docker_container Fake.rt "nginx" None "tcp"
              (PyList []) (PyList []) false (PyList ["KEY=a=b"%string])
              (Fake.idle, []))) =
    [EvImport; EvFromEnv; EvList "nginx"; EvPull "nginx";
     EvRun "nginx" true
       {| kw_name := None; kw_ports := ∅; kw_volumes := ∅;
          kw_environment := ∅ |}].
Proof. vm_compute. split; [reflexivity|]. split; [discriminate|reflexivity]. Qed.

(** C3, counterexample.  Called with the environment list
    [["A=1"; "A=2"]], the function does not fail: it pulls, runs and
    reports the new container, and the run call carries an empty
    environment, in which [A] is bound to nothing. *)
Lemma duplicate_env_key_call_succeeds :
  let out := run_docker_container Fake.rt "nginx" None "tcp"
               (PyList ["8080:80"%string]) (PyList []) false
               (PyList ["A=1"; "A=2"]%string) (Fake.idle, []) in
  fst out = Ret (ExitRunning "1111aaaa2222") /\
  snd (snd out) =
    [EvImport; EvFromEnv; EvList "nginx"; EvPull "nginx";
     EvRun "nginx" true
       {| kw_name := None;
          kw_ports := {[ "80/tcp"%string := "8080"%string ]};
          kw_volumes := ∅;
          kw_environment := ∅ |}] /\
  (∅ : gmap string string) !! "A"%string = None.
Proof. vm_compute. repeat split; reflexivity. Qed.

(** C3, amended.  For every environment list with two assignments to
    the same variable name, the call is the call with the empty
    environment list: the duplicate is neither an error nor resolved
    by the last assignment, since [params['environment']] stays the
    [[]] of line 31 and the loop of lines 120-124 never sees the list.
    In every run call the variable is bound to nothing. *)
Theorem duplicate_env_key_ignored :
  forall (W : Type) (rt : runtime W) image name protocol ports volumes
         clean pre first mid second post (w : W) tr,
    token0 "=" first = token0 "=" second ->
    let environment := PyList (pre ++ first :: mid ++ second :: post) in
    run_docker_container rt image name protocol ports volumes clean
      environment (w, tr) =
    run_docker_container rt image name protocol ports volumes clean
      (PyList []) (w, tr) /\
    exists new,
      snd (snd (run_docker_container rt image name protocol ports volumes
                  clean environment (w, tr))) = tr ++ new /\
      Forall (fun e => forall d,
                  run_environment e = Some d ->
                  d !! token0 "=" first = None /\
                  d !! token0 "=" second = None) new.
Proof.
  intros W rt image name protocol ports volumes clean pre first mid second
         post w tr Hsame environment.
  split; [reflexivity|].
  apply (emits_run_docker_container rt
           (fun e => forall d,
                run_environment e = Some d ->
                d !! token0 "=" first = None /\
                d !! token0 "=" second = None)).
  - intros [] [_ Hrun] d; simpl; try discriminate.
  - intros kw s s' Hkw. split; [discriminate|].
    intros d. simpl. intros [= <-].
    apply convert_params_ret in Hkw as (_ & _ & Henv).
    simpl in Henv. injection Henv as <-.
    split; apply lookup_empty.
Qed.

Lemma duplicate_env_key_ignored_witness :
  let out := run_docker_container Fake.rt "nginx" None "tcp"
               (PyList ["8080:80"%string]) (PyList []) false
               (PyList ([] ++ "A=1"%string :: [] ++ "A=2"%string :: []))
               (Fake.idle, []) in
  out = run_docker_container Fake.rt "nginx" None "tcp"
          (PyList ["8080:80"%string]) (PyList []) false (PyList [])
          (Fake.idle, []) /\
  fst out = Ret (ExitRunning "1111aaaa2222").
Proof.
  destruct (duplicate_env_key_ignored Fake.world Fake.rt "nginx" None
              "tcp"%string (PyList ["8080:80"%string]) (PyList []) false
              [] "A=1"%string [] "A=2"%string [] Fake.idle [] eq_refl)
    as [Hsame _].
  split; [exact Hsame|reflexivity].
Defined.

(** C5, counterexample.  Port strings with an empty token or with a
    third token are accepted: ["8080:"] gives the key ["/tcp"] and
    ["a:b:c"] gives ["b/tcp"], the third token dropped. *)
Lemma malformed_port_accepted :
  convert_ports "tcp" (PyList ["8080:"%string]) =
    inr {[ "/tcp"%string := "8080"%string ]} /\
  convert_ports "tcp" (PyList ["a:b:c"%string]) =
    inr {[ "b/tcp"%string := "a"%string ]} /\
  ~ (exists e, convert_ports "tcp" (PyList ["a:b:c"%string]) = inl e).
Proof.
  split; [vm_compute; reflexivity|]. split; [vm_compute; reflexivity|].
  intros [e H]. vm_compute in H. discriminate.
Qed.

(** C5, amended.  The port loop has no validation of its own.  A list
    whose strings all hold a [':'] is always converted: each string
    adds the key made of its second token, ["/"] and the protocol, with
    its first token as value, whether or not a token is empty or more
    tokens follow.  A list with a string that holds no [':'] makes the
    loop raise IndexError at [ports[1]]. *)
Theorem port_loop_has_no_validation (protocol : string) (l : list string) :
  (Forall (fun port => contains ":" port = true) l ->
   convert_ports protocol (PyList l) = inr (ports_of protocol l)) /\
  (Exists (fun port => contains ":" port = false) l ->
   convert_ports protocol (PyList l) = inl IndexError).
Proof.
  unfold convert_ports. simpl. split.
  - intros Hl. apply fold_exn_port_step, Hl.
  - intros Hl.
    apply (fold_exn_first_error _ (fun port => contains ":" port = true)).
    + intros port d. destruct (contains ":" port) eqn:E; [left; reflexivity|].
      right. apply port_step_without, E.
    + intros port d Hp. rewrite (port_step_with _ _ _ Hp). eauto.
    + eapply Exists_impl; [exact Hl|]. simpl. intros port ->. discriminate.
Qed.

Lemma port_loop_has_no_validation_witness :
  convert_ports "tcp" (PyList ["8080:"; "a:b:c"]%string) =
    inr (ports_of "tcp" ["8080:"; "a:b:c"]%string) /\
  convert_ports "tcp" (PyList ["8080:80"; "8080"]%string) = inl IndexError.
Proof.
  split.
  - apply (proj1 (port_loop_has_no_validation "tcp" ["8080:"; "a:b:c"]%string)).
    repeat constructor.
  - apply (proj2 (port_loop_has_no_validation "tcp" ["8080:80"; "8080"]%string)).
    apply Exists_cons_tl, Exists_cons_hd. reflexivity.
Defined.

(** ** Draining *)

Section Drain.

Context {W : Type} (rt : runtime W).

(** A stop loop that ends normally has stopped every container, in order. *)
Lemma stop_all_ok (cs : list container) s s' :
  stop_all rt cs s = (Ret tt, s') -> snd s' = snd s ++ map EvStop cs.
Proof.
  revert s. induction cs as [|c cs IH]; intros [w tr]; simpl.
  - intros [= <-]. simpl. rewrite app_nil_r. reflexivity.
  - unfold stop_all. simpl. unfold bindM, sdk at 1.
    destruct (container_stop rt c w) as [[e|[]] w1]; [discriminate|].
    intros H. apply IH in H. rewrite H. simpl. rewrite <- app_assoc. reflexivity.
Qed.

(** The stop loop ends at the first stop call that raises. *)
Lemma stop_all_first_failure (pre post : list container) c e s s2 w3 :
  stop_all rt pre s = (Ret tt, s2) ->
  container_stop rt c (fst s2) = (inl e, w3) ->
  stop_all rt (pre ++ c :: post) s = (Raise (Sdk e), (w3, snd s2 ++ [EvStop c])).
Proof.
  revert s. induction pre as [|p pre IH]; intros [w tr]; simpl.
  - intros [= <-]. simpl. intros Hc.
    unfold stop_all. simpl. unfold bindM, sdk at 1. rewrite Hc. reflexivity.
  - unfold stop_all. simpl. unfold bindM, sdk at 1 3.
    destruct (container_stop rt p w) as [[e'|[]] w1]; [discriminate|].
    intros H Hc. apply (IH _ H Hc).
Qed.

End Drain.

(** C6, counterexample.  Two containers of the image are running; the
    stop of the first succeeds and the stop of the second raises
    APIError.  The call returns through line 86: nothing is pruned and
    nothing is pulled.  When the stuck container is listed first, the
    other one, whose stop would succeed, is not even asked to stop. *)
Lemma one_failed_stop_aborts_call :
  let out := run_docker_container Fake.rt "nginx" None "tcp"
               (PyList ["8080:80"%string]) (PyList []) false (PyList [])
               (Fake.busy_last, []) in
  let out' := run_docker_container Fake.rt "nginx" None "tcp"
               (PyList ["8080:80"%string]) (PyList []) false (PyList [])
               (Fake.busy, []) in
  fst out = Ret ExitDrainError /\
  snd (snd out) =
    [EvImport; EvFromEnv; EvList "nginx"; EvStop Fake.c2; EvStop Fake.c1] /\
  calls is_pull (snd (snd out)) = 0 /\
  fst out' = Ret ExitDrainError /\
  snd (snd out') = [EvImport; EvFromEnv; EvList "nginx"; EvStop Fake.c1] /\
  fst (container_stop Fake.rt Fake.c2 Fake.busy) = inr tt.
Proof. vm_compute. repeat split; reflexivity. Qed.

(** C6, amended.  The drain ends at the first stop call that raises:
    the containers listed after it are not stopped and prune is not
    called.  For NotFound the call carries on with the conversion; for
    any other APIError the function returns at once, before any pull or
    run, whether or not the other stops succeeded or would succeed. *)
Theorem first_failed_stop_ends_drain :
  forall (W : Type) (rt : runtime W) image pre c post e
         (w : W) tr w1 s2 w3,
    containers_list rt image w = (inr (pre ++ c :: post), w1) ->
    stop_all rt pre (w1, tr ++ [EvList image]) = (Ret tt, s2) ->
    container_stop rt c (fst s2) = (inl e, w3) ->
    drain rt image (w, tr) =
      (drain_outcome e,
       (w3, tr ++ [EvList image] ++ map EvStop pre ++ [EvStop c])) /\
    (e = APIError ->
     forall name protocol ports volumes clean environment w0 tr0,
       load_docker rt (w0, tr0) = (Ret tt, (w, tr)) ->
       run_docker_container rt image name protocol ports volumes clean
         environment (w0, tr0) =
       (Ret ExitDrainError,
        (w3, tr ++ [EvList image] ++ map EvStop pre ++ [EvStop c]))).
Proof.
  intros W rt image pre c post e w tr w1 s2 w3 Hlist Hpre Hc.
  assert (Hd : drain rt image (w, tr) =
               (drain_outcome e,
                (w3, tr ++ [EvList image] ++ map EvStop pre ++ [EvStop c]))).
  { pose proof (stop_all_ok rt _ _ _ Hpre) as Htr. simpl in Htr.
    pose proof (stop_all_first_failure rt pre post c e _ _ _ Hpre Hc) as Hall.
    unfold drain, drain_try, drain_except, try_except, bindM, sdk at 1.
    rewrite Hlist.
    destruct (pre ++ c :: post) as [|x xs] eqn:E.
    { destruct pre; discriminate. }
    rewrite Hall, Htr, <- !app_assoc. simpl.
    destruct e; reflexivity. }
  split; [exact Hd|].
  intros -> name protocol ports volumes clean environment w0 tr0 Hload.
  rewrite run_docker_container_steps, Hload. simpl. rewrite Hd. reflexivity.
Qed.

Lemma first_failed_stop_ends_drain_witness :
  let out := run_docker_container Fake.rt "nginx" None "tcp"
               (PyList ["8080:80"%string]) (PyList []) false (PyList [])
               (Fake.busy_last, []) in
  fst out = Ret ExitDrainError /\
  snd (snd out) =
    [EvImport; EvFromEnv; EvList "nginx"; EvStop Fake.c2; EvStop Fake.c1].
Proof.
  pose proof (first_failed_stop_ends_drain Fake.world Fake.rt "nginx"
           [Fake.c2] Fake.c1 [] APIError
           Fake.busy_last [EvImport; EvFromEnv] Fake.busy_last) as H.
  edestruct H as [_ Hcall]; [reflexivity|reflexivity|reflexivity|].
  cbv zeta.
  rewrite (Hcall eq_refl None "tcp"%string (PyList ["8080:80"%string])
             (PyList []) false (PyList []) Fake.busy_last [] eq_refl).
  split; reflexivity.
Defined.

(** ** The conversion inside a call *)

Lemma convert_ports_malformed protocol ports :
  malformed ports -> convert_ports protocol ports = inl IndexError.
Proof.
  intros (l & Hl & Hbad). unfold convert_ports. rewrite Hl.
  apply (fold_exn_first_error _ (fun port => contains ":" port = true)).
  - intros port d. destruct (contains ":" port) eqn:E; [left; reflexivity|].
    right. apply port_step_without, E.
  - intros port d Hp. rewrite (port_step_with _ _ _ Hp). eauto.
  - eapply Exists_impl; [exact Hbad|]. simpl. intros port ->. discriminate.
Qed.

Section Conversion.

Context {W : Type} (rt : runtime W).

Lemma volume_step_blocked clean volume d s a s' :
  contains ":" volume = false ->
  volume_step rt clean volume d s <> (Ret a, s').
Proof.
  intros Hno. unfold volume_step, bindM.
  rewrite (split_without _ _ Hno). simpl. discriminate.
Qed.

Lemma volume_loop_blocked clean (l : list string) :
  Exists (fun volume => contains ":" volume = false) l ->
  forall d s a s', for_fold l (volume_step rt clean) d s <> (Ret a, s').
Proof.
  induction 1 as [v l Hv|v l _ IH]; intros d s a s'; simpl; unfold bindM.
  - destruct (volume_step rt clean v d s) as [[d1|x|e] s1] eqn:E;
      try discriminate.
    destruct (volume_step_blocked _ _ _ _ _ _ Hv E).
  - destruct (volume_step rt clean v d s) as [[d1|x|e] s1]; try discriminate.
    apply IH.
Qed.

(** The conversion does not complete when a port string or a volume
    string holds no [':']. *)
Lemma convert_params_blocked protocol clean p :
  malformed (p_ports p) \/ malformed (p_volumes p) ->
  forall s kw s', convert_params rt protocol clean p s <> (Ret kw, s').
Proof.
  intros H s kw s'. unfold convert_params, bindM at 1.
  destruct H as [Hp|(l & Hl & Hb)].
  - rewrite (convert_ports_malformed _ _ Hp). simpl. discriminate.
  - destruct (convert_ports protocol (p_ports p)); simpl; [discriminate|].
    unfold bindM at 1, convert_volumes, bindM at 1. rewrite Hl. simpl.
    destruct (for_fold l (volume_step rt clean) ∅ s) as [[d1|x|e] s1] eqn:E;
      try discriminate.
    destruct (volume_loop_blocked _ _ Hb _ _ _ _ E).
Qed.

(** How the steps before the conversion can end. *)
Lemma load_docker_result s :
  match fst (load_docker rt s) with
  | Ret _ => True
  | Return x => x = ExitInstallError
  | Raise e =>
      e = UnboundLocalError \/ (exists x, e = Sdk x) \/
      (exists h, e = raised h)
  end.
Proof.
  destruct s as [w tr]. unfold load_docker, bindM, host.
  destruct (import_docker rt w) as [[|] w1]; simpl.
  - unfold sdk. destruct (from_env rt w1) as [[e|[]] w2]; simpl; eauto.
  - unfold check_call.
    destruct (pip_install rt w1) as [[h|[|]] w2]; simpl; eauto.
Qed.

Lemma drain_result image s :
  match fst (drain rt image s) with
  | Ret _ => True
  | Return x => x = ExitDrainError
  | Raise e => exists x, e = Sdk x
  end.
Proof.
  assert (Hstop : forall cs s0,
             match fst (stop_all rt cs s0) with
             | Ret _ => True
             | Return _ => False
             | Raise e => exists x, e = Sdk x
             end).
  { induction cs as [|c cs IH]; intros [w0 tr0]; simpl; [exact I|].
    unfold stop_all. simpl. unfold bindM, sdk at 1.
    destruct (container_stop rt c w0) as [[e|[]] w1]; simpl; [eauto|].
    apply IH. }
  destruct s as [w tr].
  unfold drain, drain_try, drain_except, try_except, bindM, sdk at 1.
  destruct (containers_list rt image w) as [[e|[|c cs]] w1]; simpl.
  - destruct e; simpl; eauto.
  - exact I.
  - specialize (Hstop (c :: cs) (w1, tr ++ [EvList image])).
    destruct (stop_all rt (c :: cs) (w1, tr ++ [EvList image]))
      as [[[]|x|e] [w2 tr2]]; simpl in *.
    + unfold sdk. destruct (containers_prune rt w2) as [[e|[]] w3]; simpl; auto.
      destruct e; simpl; eauto.
    + contradiction.
    + destruct Hstop as [x ->]. destruct x; simpl; eauto.
Qed.

(** The drain always starts by listing the running containers. *)
Lemma drain_lists image w tr :
  exists rest, snd (snd (drain rt image (w, tr))) = tr ++ EvList image :: rest.
Proof.
  assert (Hin : exists rest,
             snd (snd (drain_try rt image (w, tr))) = tr ++ EvList image :: rest).
  { unfold drain_try. rewrite bindM_sdk.
    destruct (containers_list rt image w) as [[e|[|c cs]] w1]; simpl;
      try (exists []; reflexivity).
    destruct (emits_bind early (stop_all rt (c :: cs))
                (fun _ => sdk EvPrune (containers_prune rt))
                (emits_stop_all rt _)
                (fun _ _ => emits_sdk early EvPrune _ (conj eq_refl eq_refl))
                w1 (tr ++ [EvList image])) as (n & E & _).
    exists n. rewrite E, <- app_assoc. reflexivity. }
  destruct Hin as (rest & Hrest).
  unfold drain, try_except.
  destruct (drain_try rt image (w, tr)) as [[[]|x|e] [w1 tr1]]; simpl in *; eauto.
  subst tr1. unfold drain_except.
  destruct (is_NotFound e); simpl; [eauto|].
  destruct (is_APIError e); simpl; eauto.
Qed.

End Conversion.

(** ** Calls that stop in the conversion *)

Section Blocked.

Context {W : Type} (rt : runtime W).

(** The conversion only returns through line 113, and raises only the
    errors of its own lookups and iterations or of a directory test. *)
Lemma convert_params_result protocol clean p s :
  match fst (convert_params rt protocol clean p s) with
  | Ret _ => True
  | Return x => exists h, x = ExitVolumeMissing h
  | Raise e => e = IndexError \/ e = TypeError \/ exists h, e = raised h
  end.
Proof.
  assert (Hstep : forall v d s0,
             match fst (volume_step rt clean v d s0) with
             | Ret _ => True
             | Return x => exists h, x = ExitVolumeMissing h
             | Raise e => e = IndexError \/ exists h, e = raised h
             end).
  { intros v d [w0 tr0]. unfold volume_step, bindM, index, check_call.
    destruct (split ":" v) as [|h [|c rest]]; simpl; auto.
    destruct clean; simpl; auto.
    destruct (test_d rt h w0) as [[e|[|]] w1]; simpl; eauto. }
  assert (Hloop : forall l d s0,
             match fst (for_fold l (volume_step rt clean) d s0) with
             | Ret _ => True
             | Return x => exists h, x = ExitVolumeMissing h
             | Raise e => e = IndexError \/ exists h, e = raised h
             end).
  { induction l as [|v l IH]; intros d s0; simpl; [exact I|].
    unfold bindM. specialize (Hstep v d s0).
    destruct (volume_step rt clean v d s0) as [[d1|x|e] s1]; simpl in *; auto.
    apply IH. }
  unfold convert_params, bindM at 1, convert_ports.
  destruct (iter (p_ports p)) as [e|l] eqn:Ei.
  { destruct (p_ports p); try discriminate. injection Ei as <-. simpl. auto. }
  assert (Hp : forall d, match fold_exn (port_step protocol) l d with
                         | inl e => e = IndexError
                         | inr _ => True
                         end).
  { clear. induction l as [|port l IH]; intros d; simpl; [exact I|].
    unfold port_step at 1, index.
    destruct (split ":" port) as [|h [|c rest]]; simpl; auto. apply IH. }
  specialize (Hp ∅).
  destruct (fold_exn (port_step protocol) l ∅) as [e|pd]; simpl; [auto|].
  unfold bindM at 1, convert_volumes, bindM at 1.
  destruct (iter (p_volumes p)) as [e|lv] eqn:Ev; simpl.
  { destruct (p_volumes p); try discriminate. injection Ev as <-. auto. }
  specialize (Hloop lv ∅ s).
  destruct (for_fold lv (volume_step rt clean) ∅ s) as [[vd|x|e] s1];
    simpl in *; auto.
  2:{ destruct Hloop as [->|Hh]; auto. }
  unfold bindM, convert_environment.
  destruct (iter (p_environment p)) as [e|le] eqn:Ee; simpl.
  { destruct (p_environment p); try discriminate. injection Ee as <-. auto. }
  assert (He : forall d, match fold_exn env_step le d with
                         | inl e => e = IndexError
                         | inr _ => True
                         end).
  { clear. induction le as [|env l IH]; intros d; simpl; [exact I|].
    unfold env_step at 1, index.
    destruct (split "=" env) as [|h [|c rest]]; simpl; auto. apply IH. }
  specialize (He ∅).
  destruct (fold_exn env_step le ∅); simpl; auto.
Qed.

Section Fixed.

Variables (image : string) (name : option string) (protocol : string)
          (ports volumes : pyval) (clean : bool) (environment : pyval).

Hypothesis blocked :
  forall s kw s',
    convert_params rt "tcp" clean
      (merge_params (default_params name) ports volumes) s <> (Ret kw, s').

Let out (s : W * list event) :=
  run_docker_container rt image name protocol ports volumes clean environment s.

(** No pull and no run call. *)
Lemma blocked_call_early : emits early (run_docker_container rt image name
                             protocol ports volumes clean environment).
Proof.
  apply emits_run_docker_container; [auto|].
  intros kw s s' Hkw. destruct (blocked _ _ _ Hkw).
Qed.

(** The call does not report a running container. *)
Lemma blocked_call_fails s short : fst (out s) <> Ret (ExitRunning short).
Proof.
  unfold out. rewrite run_docker_container_steps. unfold after.
  pose proof (load_docker_result rt s) as H0.
  destruct (load_docker rt s) as [[[]|x|e] s0]; simpl in *;
    [|subst x; discriminate|discriminate].
  pose proof (drain_result rt image s0) as H1.
  destruct (drain rt image s0) as [[[]|x|e] s1]; simpl in *;
    [|subst x; discriminate|discriminate].
  pose proof (convert_params_result "tcp" clean
                (merge_params (default_params name) ports volumes) s1) as H2.
  destruct (convert_params rt "tcp" clean _ s1) as [[kw|x|e] s2] eqn:E;
    simpl in *.
  - destruct (blocked _ _ _ E).
  - destruct H2 as [h ->]. discriminate.
  - discriminate.
Qed.

(** An IndexError of the call comes after the list call of the drain. *)
Lemma blocked_call_index_error w tr :
  fst (out (w, tr)) = Raise IndexError ->
  exists a b, snd (snd (out (w, tr))) = tr ++ a ++ EvList image :: b.
Proof.
  unfold out. rewrite run_docker_container_steps. unfold after.
  pose proof (load_docker_result rt (w, tr)) as H0.
  destruct (emits_load_docker rt w tr) as (n0 & E0 & _).
  destruct (load_docker rt (w, tr)) as [[[]|x|e] [w0 tr0]]; simpl in *;
    [|discriminate
     |intros [= ->]; destruct H0 as [|[[? ?]|[[] ?]]]; discriminate].
  subst tr0.
  pose proof (drain_result rt image (w0, tr ++ n0)) as H1.
  destruct (drain_lists rt image w0 (tr ++ n0)) as (rest & E1).
  destruct (drain rt image (w0, tr ++ n0)) as [[[]|x|e] [w1 tr1]]; simpl in *;
    [|discriminate|intros [= ->]; destruct H1; discriminate].
  subst tr1.
  destruct (emits_convert_params rt "tcp" clean
              (merge_params (default_params name) ports volumes)
              w1 ((tr ++ n0) ++ EvList image :: rest)) as (n2 & E2 & _).
  destruct (convert_params rt "tcp" clean _ _) as [[kw|x|e] [w2 tr2]] eqn:E;
    simpl in *.
  - destruct (blocked _ _ _ E).
  - discriminate.
  - intros _. subst tr2. exists n0, (rest ++ n2).
    rewrite <- !app_assoc. reflexivity.
Qed.

End Fixed.

End Blocked.

(** ** Malformed mapping strings *)

(** C7, counterexample.  With the port string ["8080"] and one running
    container of the image, the daemon is asked to list, to stop and to
    prune before the IndexError of line 94 ends the call. *)
Lemma malformed_port_reaches_daemon :
  let out := run_docker_container Fake.rt "nginx" None "tcp"
               (PyList ["8080"%string]) (PyList []) false (PyList [])
               (Fake.serving, []) in
  fst out = Raise IndexError /\
  snd (snd out) =
    [EvImport; EvFromEnv; EvList "nginx"; EvStop Fake.c1; EvPrune] /\
  calls is_list (snd (snd out)) = 1 /\
  calls is_stop (snd (snd out)) = 1 /\
  calls is_prune (snd (snd out)) = 1.
Proof. vm_compute. repeat split; reflexivity. Qed.

(** C7, amended.  When a port or a volume string holds no [':'], the
    call issues no pull and no run call, but the error is not found
    before the daemon is contacted: an IndexError of the call comes
    after the list call of the drain (and after the stop and prune
    calls the drain makes).  For a port string it is raised as soon as
    the drain has ended normally, in the state the drain left.
    Environment strings are not looked at: the call is the same for
    every [environment] argument. *)
Theorem malformed_mapping_error_after_drain :
  forall (W : Type) (rt : runtime W) image name protocol ports volumes
         clean environment (w : W) tr,
    malformed ports \/ malformed volumes ->
    let out := run_docker_container rt image name protocol ports volumes
                 clean environment (w, tr) in
    (exists new,
        snd (snd out) = tr ++ new /\
        Forall early new /\
        (fst out = Raise IndexError -> In (EvList image) new)) /\
    (malformed ports ->
     forall s0 s1,
       load_docker rt (w, tr) = (Ret tt, s0) ->
       drain rt image s0 = (Ret tt, s1) ->
       out = (Raise IndexError, s1)) /\
    (forall environment',
        out = run_docker_container rt image name protocol ports volumes
                clean environment' (w, tr)).
Proof.
  intros W rt image name protocol ports volumes clean environment w tr Hbad.
  assert (Hblocked : forall s kw s',
             convert_params rt "tcp" clean
               (merge_params (default_params name) ports volumes) s
             <> (Ret kw, s')).
  { apply convert_params_blocked. exact Hbad. }
  cbv zeta. split; [|split; [|reflexivity]].
  - destruct (blocked_call_early rt image name protocol ports volumes clean
                environment Hblocked w tr) as (new & Enew & Fnew).
    exists new. split; [exact Enew|]. split; [exact Fnew|].
    intros Herr.
    destruct (blocked_call_index_error rt image name protocol ports volumes
                clean environment Hblocked w tr Herr) as (a & b & Eab).
    rewrite Enew in Eab. apply app_inv_head in Eab. subst new.
    apply in_or_app. right. left. reflexivity.
  - intros Hp s0 s1 Hload Hdrain.
    rewrite run_docker_container_steps, Hload. simpl. rewrite Hdrain. simpl.
    unfold convert_params, bindM at 1. simpl.
    rewrite (convert_ports_malformed _ _ Hp). reflexivity.
Qed.

Lemma malformed_mapping_error_after_drain_witness :
  let out := run_docker_container Fake.rt "nginx" None "tcp"
               (PyList ["8080"%string]) (PyList []) false (PyList [])
               (Fake.serving, []) in
  (exists new,
      snd (snd out) = [] ++ new /\
      Forall early new /\
      (fst out = Raise IndexError -> In (EvList "nginx") new)) /\
  fst out = Raise IndexError.
Proof.
  assert (Hbad : malformed (PyList ["8080"%string])).
  { exists ["8080"%string]. split; [reflexivity|].
    apply Exists_cons_hd. reflexivity. }
  destruct (malformed_mapping_error_after_drain Fake.world Fake.rt "nginx"
              None "tcp"%string (PyList ["8080"%string]) (PyList []) false
              (PyList []) Fake.serving [] (or_introl Hbad))
    as (Htrace & Hraise & _).
  split; [exact Htrace|].
  cbv zeta in Hraise.
  rewrite (Hraise Hbad (Fake.serving, [EvImport; EvFromEnv])
             (snd (drain Fake.rt "nginx" (Fake.serving, [EvImport; EvFromEnv])))
             eq_refl eq_refl).
  reflexivity.
Defined.

(** ** The script as a whole *)

(** One call with no running container of the image, a daemon that
    pulls and runs, and no volumes: one list, one pull and one run
    call, no stop call, and the short id of the new container is
    reported. *)
Lemma single_call_starts_once {W} (rt : runtime W)
    image name protocol ports clean environment ports_dict
    (w : W) tr w0 tr0 w1 w2 w3 c :
  load_docker rt (w, tr) = (Ret tt, (w0, tr0)) ->
  containers_list rt image w0 = (inr [], w1) ->
  convert_ports "tcp" ports = inr ports_dict ->
  images_pull rt image w1 = (inr tt, w2) ->
  let kw := {| kw_name := name; kw_ports := ports_dict;
               kw_volumes := ∅; kw_environment := ∅ |} in
  containers_run rt image true kw w2 = (inr c, w3) ->
  run_docker_container rt image name protocol ports (PyList []) clean
    environment (w, tr) =
  (Ret (ExitRunning (short_id c)),
   (w3, tr0 ++ [EvList image; EvPull image; EvRun image true kw])).
Proof.
  intros Hload Hlist Hports Hpull kw Hrun.
  rewrite run_docker_container_steps, Hload. simpl.
  unfold drain, drain_try, try_except. rewrite bindM_sdk, Hlist. simpl.
  unfold convert_params, convert_volumes, bindM, lift. simpl.
  rewrite Hports. simpl.
  unfold pull, try_except, sdk. rewrite Hpull. simpl.
  unfold call, start, try_except, bindM, sdk. fold kw. rewrite Hrun. simpl.
  rewrite <- !app_assoc. reflexivity.
Qed.

(** C1, evaluated where it fails.  The command line
    [nginx --port 8080:80 --volume /srv/www:/usr/share/nginx/html], no
    container running: lines 163 and 165 call the function one after the
    other, so the image is pulled twice and run twice, and the second
    call stops the container the first one started.  Without
    [--volume] (no volumes at all), the first call ends in a TypeError
    before any pull or run call. *)
Theorem main_calls_function_twice :
  let out := main Fake.rt
               (nginx (Some ["8080:80"%string])
                      (Some ["/srv/www:/usr/share/nginx/html"%string]))
               [] (Fake.idle, []) in
  let out' := main Fake.rt (nginx (Some ["8080:80"%string]) None)
                [] (Fake.idle, []) in
  fst out = Ret (ExitRunning "1111aaaa2222", ExitRunning "3333cccc4444") /\
  calls is_pull (snd (snd out)) = 2 /\
  calls is_run (snd (snd out)) = 2 /\
  calls is_stop (snd (snd out)) = 1 /\
  fst out' = Raise TypeError /\
  calls is_pull (snd (snd out')) = 0 /\
  calls is_run (snd (snd out')) = 0.
Proof. vm_compute. repeat split; reflexivity. Qed.

Section Absent.

Context {W : Type} (rt : runtime W).

(** The conversion does not complete when [ports] or [volumes] is
    [None]: the loop over it raises TypeError, unless an earlier loop
    has already ended the conversion. *)
Lemma convert_params_none protocol clean p :
  p_ports p = PyNone \/ p_volumes p = PyNone ->
  forall s kw s', convert_params rt protocol clean p s <> (Ret kw, s').
Proof.
  intros H s kw s'. unfold convert_params, bindM at 1.
  destruct H as [Hp|Hv].
  - unfold convert_ports. rewrite Hp. simpl. discriminate.
  - destruct (convert_ports protocol (p_ports p)); simpl; [discriminate|].
    unfold bindM at 1, convert_volumes, bindM at 1. rewrite Hv. simpl.
    discriminate.
Qed.

Lemma absent_flag_blocks (a : args.t) clean :
  args.port a = None \/ args.volume a = None ->
  forall s kw s',
    convert_params rt "tcp" clean
      (merge_params (default_params (args.name a))
         (of_option (args.port a)) (of_option (args.volume a))) s
    <> (Ret kw, s').
Proof.
  intros H. apply convert_params_none. simpl.
  destruct H as [-> | ->]; auto.
Qed.

End Absent.

(** C10, counterexample.  Without [--port] and with two running
    containers of which one cannot be stopped, both calls return
    through line 86 and the script ends normally: no TypeError.  With
    the port string ["8080"] and without [--volume], the exception is
    the IndexError of the port loop, not a TypeError of the volume
    loop. *)
Lemma absent_flag_without_type_error :
  fst (main Fake.rt (nginx None (Some ["/srv/www:/w"%string])) []
         (Fake.busy, [])) = Ret (ExitDrainError, ExitDrainError) /\
  fst (main Fake.rt (nginx (Some ["8080"%string]) None) []
         (Fake.idle, [])) = Raise IndexError.
Proof. vm_compute. split; reflexivity. Qed.

(** C10, amended.  When the command line has no [--port] or no
    [--volume], the argument handed to the function is [None] and is
    never treated as an empty list: the script issues no pull and no
    run call and reports no running container.  When the extra
    arguments bind, the first call loads the SDK and ends its drain
    normally, and the port strings (if given) all convert, the loop
    over [None] raises TypeError, which nothing catches: the script
    ends there, in the state the drain left, without the second
    call. *)
Theorem absent_flag_crashes_after_drain :
  forall (W : Type) (rt : runtime W) (a : args.t) unknown_args
         (w : W) tr,
    args.port a = None \/ args.volume a = None ->
    (exists new,
        snd (snd (main rt a unknown_args (w, tr))) = tr ++ new /\
        Forall early new) /\
    (forall first second,
        fst (main rt a unknown_args (w, tr)) = Ret (first, second) ->
        forall short,
          first <> ExitRunning short /\ second <> ExitRunning short) /\
    (forall d kw s0 s1,
        unknown_args_dict unknown_args = inr d ->
        bind_kwargs d = inr kw ->
        load_docker rt (w, tr) = (Ret tt, s0) ->
        drain rt (args.image_name a) s0 = (Ret tt, s1) ->
        args.port a = None \/
        (exists ports_dict,
            convert_ports "tcp" (of_option (args.port a)) = inr ports_dict) ->
        main rt a unknown_args (w, tr) = (Raise TypeError, s1)).
Proof.
  intros W rt a unknown_args w tr Hnone.
  pose proof (fun clean => absent_flag_blocks rt a clean Hnone) as Hblocked.
  split; [|split].
  - revert w tr.
    change (emits early (main rt a unknown_args)).
    unfold main.
    apply emits_bind; [apply emits_lift|]. intros d _.
    apply emits_bind; [apply emits_lift|]. intros kw _.
    apply emits_bind.
    { apply blocked_call_early, Hblocked. }
    intros first _. apply emits_bind.
    { apply blocked_call_early, Hblocked. }
    intros second _. apply emits_ret.
  - intros first second. unfold main, bindM, lift.
    destruct (unknown_args_dict unknown_args) as [e|d]; simpl; [discriminate|].
    destruct (bind_kwargs d) as [e|kw]; simpl; [discriminate|].
    pose proof (blocked_call_fails rt (args.image_name a) (args.name a)
                  (args.protocol a) (of_option (args.port a))
                  (of_option (args.volume a)) (fst kw) (snd kw)
                  (Hblocked (fst kw)) (w, tr)) as H1.
    destruct (run_docker_container rt (args.image_name a) (args.name a)
                (args.protocol a) (of_option (args.port a))
                (of_option (args.volume a)) (fst kw) (snd kw) (w, tr))
      as [[x1|x1|e1] s1] eqn:E1; simpl in *; try discriminate.
    pose proof (blocked_call_fails rt (args.image_name a) (args.name a)
                  (args.protocol a) (of_option (args.port a))
                  (of_option (args.volume a)) false (PyList [])
                  (Hblocked false) s1) as H2.
    destruct (run_docker_container rt (args.image_name a) (args.name a)
                (args.protocol a) (of_option (args.port a))
                (of_option (args.volume a)) false (PyList []) s1)
      as [[x2|x2|e2] s2] eqn:E2; simpl in *; try discriminate.
    intros [= <- <-] short. split.
    + intros ->. apply (H1 short). reflexivity.
    + intros ->. apply (H2 short). reflexivity.
  - intros d kw s0 s1 Hd Hkw Hload Hdrain Hports.
    unfold main, bindM at 1, lift. rewrite Hd. simpl.
    unfold bindM at 1. rewrite Hkw. simpl.
    unfold bindM at 1.
    rewrite run_docker_container_steps, Hload. simpl. rewrite Hdrain. simpl.
    unfold convert_params, bindM at 1, lift. simpl.
    destruct Hports as [Hp|[pd Hpd]].
    + rewrite Hp. reflexivity.
    + rewrite Hpd. simpl. destruct Hnone as [Hp|Hv].
      * rewrite Hp in Hpd. discriminate.
      * rewrite Hv. reflexivity.
Qed.

Lemma absent_flag_crashes_after_drain_witness :
  main Fake.rt (nginx None (Some ["/srv/www:/usr/share/nginx/html"%string]))
    [] (Fake.serving, []) =
  (Raise TypeError,
   snd (drain Fake.rt "nginx" (Fake.serving, [EvImport; EvFromEnv]))) /\
  main Fake.rt (nginx (Some ["8080:80"%string]) None)
    ["clean_host_volume_dirs=True"%string] (Fake.idle, []) =
  (Raise TypeError, (Fake.idle, [EvImport; EvFromEnv; EvList "nginx"])).
Proof.
  split.
  - destruct (absent_flag_crashes_after_drain Fake.world Fake.rt
                (nginx None (Some ["/srv/www:/usr/share/nginx/html"%string]))
                [] Fake.serving [] (or_introl eq_refl)) as (_ & _ & Hcrash).
    apply (Hcrash ∅ (false, PyList [])
             (Fake.serving, [EvImport; EvFromEnv]));
      [reflexivity|reflexivity|reflexivity|reflexivity|left; reflexivity].
  - destruct (absent_flag_crashes_after_drain Fake.world Fake.rt
                (nginx (Some ["8080:80"%string]) None)
                ["clean_host_volume_dirs=True"%string] Fake.idle []
                (or_intror eq_refl)) as (_ & _ & Hcrash).
    apply (Hcrash {[ "clean_host_volume_dirs"%string := "True"%string ]}
             (true, PyList []) (Fake.idle, [EvImport; EvFromEnv]));
      [vm_compute; reflexivity|vm_compute; reflexivity|reflexivity|reflexivity|].
    right. exists {[ "80/tcp"%string := "8080"%string ]}. vm_compute. reflexivity.
Defined.

(** ** The order of the calls *)

Section Order.

Context {W : Type} (rt : runtime W).

Lemma pull_step image w tr :
  pull rt image (w, tr) =
  (pull_outcome (fst (images_pull rt image w)),
   (snd (images_pull rt image w), tr ++ [EvPull image])).
Proof.
  unfold pull, try_except, sdk.
  destruct (images_pull rt image w) as [[[]|[]] w']; reflexivity.
Qed.

Lemma start_step image kw w tr :
  call (start rt image kw) (w, tr) =
  (start_outcome (fst (containers_run rt image true kw w)),
   (snd (containers_run rt image true kw w), tr ++ [EvRun image true kw])).
Proof.
  unfold call, start, try_except, bindM, sdk.
  destruct (containers_run rt image true kw w) as [[[]|c] w']; reflexivity.
Qed.

Lemma calls_app p (a b : list event) : calls p (a ++ b) = calls p a + calls p b.
Proof. unfold calls. rewrite filter_app, length_app. reflexivity. Qed.

Lemma calls_early_pull (l : list event) : Forall early l -> calls is_pull l = 0.
Proof.
  induction 1 as [|e l [He _] _ IH]; [reflexivity|].
  unfold calls in *. rewrite filter_cons_False; [exact IH|].
  rewrite He. discriminate.
Qed.

Lemma calls_early_run (l : list event) : Forall early l -> calls is_run l = 0.
Proof.
  induction 1 as [|e l [_ He] _ IH]; [reflexivity|].
  unfold calls in *. rewrite filter_cons_False; [exact IH|].
  rewrite He. discriminate.
Qed.

Lemma Forall_app3 (P : event -> Prop) (a b c : list event) :
  Forall P a -> Forall P b -> Forall P c -> Forall P (a ++ b ++ c).
Proof.
  intros Ha Hb Hc. apply Forall_app. split; [exact Ha|].
  apply Forall_app. split; assumption.
Qed.

Lemma call_shape_of_call image name protocol ports volumes clean environment w tr :
  exists new,
    snd (snd (run_docker_container rt image name protocol ports volumes
                clean environment (w, tr))) = tr ++ new /\
    call_shape image new
      (fst (run_docker_container rt image name protocol ports volumes
              clean environment (w, tr))).
Proof.
  rewrite run_docker_container_steps. unfold after.
  pose proof (load_docker_result rt (w, tr)) as H0.
  destruct (emits_load_docker rt w tr) as (n0 & E0 & F0).
  destruct (load_docker rt (w, tr)) as [[[]|x|e] [w0 tr0]]; simpl in *;
    subst tr0.
  2:{ exists n0. split; [reflexivity|]. subst x.
      apply shape_before; [exact F0|discriminate..]. }
  2:{ exists n0. split; [reflexivity|].
      apply shape_before; [exact F0|discriminate..]. }
  pose proof (drain_result rt image (w0, tr ++ n0)) as H1.
  destruct (emits_drain rt image w0 (tr ++ n0)) as (n1 & E1 & F1).
  destruct (drain rt image (w0, tr ++ n0)) as [[[]|x|e] [w1 tr1]]; simpl in *;
    subst tr1.
  2:{ exists (n0 ++ n1). rewrite app_assoc. split; [reflexivity|]. subst x.
      apply shape_before; [apply Forall_app; split; assumption|discriminate..]. }
  2:{ exists (n0 ++ n1). rewrite app_assoc. split; [reflexivity|].
      apply shape_before; [apply Forall_app; split; assumption|discriminate..]. }
  pose proof (convert_params_result rt "tcp" clean
                (merge_params (default_params name) ports volumes)
                (w1, (tr ++ n0) ++ n1)) as H2.
  destruct (emits_convert_params rt "tcp" clean
              (merge_params (default_params name) ports volumes)
              w1 ((tr ++ n0) ++ n1)) as (n2 & E2 & F2).
  destruct (convert_params rt "tcp" clean _ _) as [[kw|x|e] [w2 tr2]];
    simpl in *; subst tr2.
  2:{ exists (n0 ++ n1 ++ n2). rewrite !app_assoc. split; [reflexivity|].
      destruct H2 as [h ->].
      rewrite <- app_assoc.
      apply shape_before; [apply Forall_app3; assumption|discriminate..]. }
  2:{ exists (n0 ++ n1 ++ n2). rewrite !app_assoc. split; [reflexivity|].
      rewrite <- app_assoc.
      apply shape_before; [apply Forall_app3; assumption|discriminate..]. }
  assert (Fpre : Forall early (n0 ++ n1 ++ n2)).
  { apply Forall_app3; assumption. }
  rewrite pull_step.
  destruct (images_pull rt image w2) as [[e|[]] w3]; simpl.
  { exists ((n0 ++ n1 ++ n2) ++ [EvPull image]). split.
    - rewrite <- !app_assoc. destruct e; reflexivity.
    - apply shape_pull; [exact Fpre|]. destruct e; simpl; auto. }
  rewrite start_step.
  exists ((n0 ++ n1 ++ n2) ++ [EvPull image; EvRun image true kw]). split.
  - simpl. rewrite <- !app_assoc. reflexivity.
  - apply shape_run; [exact Fpre|]. simpl.
    destruct (containers_run rt image true kw w3) as [[e|c] w4]; simpl.
    + destruct e; simpl; auto.
    + left. eauto.
Qed.

End Order.

(** X1.  The events of one call of [run_docker_container] have one of
    three shapes: only events of the lines before the pull; such events
    followed by one pull call, when the pull fails; or such events
    followed by one pull call and one run call, the run call last.  The
    result tells the shape: a pull error is reported only in the second,
    a running container or a run error only in the third. *)
Theorem call_events_shape :
  forall (W : Type) (rt : runtime W) image name protocol ports volumes
         clean environment (w : W) tr,
  exists new,
    snd (snd (run_docker_container rt image name protocol ports volumes
                clean environment (w, tr))) = tr ++ new /\
    call_shape image new
      (fst (run_docker_container rt image name protocol ports volumes
              clean environment (w, tr))).
Proof. intros. apply call_shape_of_call. Qed.

(** X2.  One call issues at most one pull call and at most one run
    call, and never a run call without a pull call.  When it reports a
    running container it has issued exactly one of each, and the run
    call is its last event, right after the pull call. *)
Theorem one_pull_one_run_per_call :
  forall (W : Type) (rt : runtime W) image name protocol ports volumes
         clean environment (w : W) tr,
  exists new,
    snd (snd (run_docker_container rt image name protocol ports volumes
                clean environment (w, tr))) = tr ++ new /\
    calls is_pull new <= 1 /\
    calls is_run new <= calls is_pull new /\
    (forall short,
        fst (run_docker_container rt image name protocol ports volumes
               clean environment (w, tr)) = Ret (ExitRunning short) ->
        calls is_pull new = 1 /\ calls is_run new = 1 /\
        exists pre kw, new = pre ++ [EvPull image; EvRun image true kw]).
Proof.
  intros.
  destruct (call_shape_of_call rt image name protocol ports volumes clean
              environment w tr) as (new & Enew & Hshape).
  exists new. split; [exact Enew|].
  destruct Hshape as [pre r Fpre Hrun _ _|pre r Fpre Hr|pre kw r Fpre Hr].
  - rewrite (calls_early_pull _ Fpre), (calls_early_run _ Fpre).
    split; [lia|]. split; [lia|]. intros short Hs. destruct (Hrun _ Hs).
  - rewrite !calls_app, (calls_early_pull _ Fpre), (calls_early_run _ Fpre).
    split; [reflexivity|]. split; [vm_compute; lia|].
    intros short Hs. destruct Hr as [Hr|Hr]; rewrite Hr in Hs; discriminate.
  - rewrite !calls_app, (calls_early_pull _ Fpre), (calls_early_run _ Fpre).
    split; [reflexivity|]. split; [reflexivity|].
    intros short _. split; [reflexivity|]. split; [reflexivity|]. eauto.
Qed.

Lemma one_pull_one_run_per_call_witness :
  exists new,
    snd (snd (run_docker_container Fake.rt "nginx" None "tcp"
                (PyList ["8080:80"%string]) (PyList []) false (PyList [])
                (Fake.idle, []))) = [] ++ new /\
    calls is_pull new = 1 /\ calls is_run new = 1.
Proof.
  destruct (one_pull_one_run_per_call Fake.world Fake.rt "nginx" None
              "tcp"%string (PyList ["8080:80"%string]) (PyList []) false
              (PyList []) Fake.idle [])
    as (new & Enew & _ & _ & Hok).
  exists new. split; [exact Enew|].
  destruct (Hok "1111aaaa2222"%string eq_refl) as (Hp & Hr & _). auto.
Defined.

(** ** The SDK module is missing *)

(** X3.  When [import docker] fails, the daemon is never contacted: the
    call installs the module and then either returns (the installation
    failed, line 63) or raises UnboundLocalError at line 66 (the
    installation worked, but the name [docker] was never bound).  Its
    only events are the import and the installation. *)
Theorem missing_sdk_never_reaches_daemon :
  forall (W : Type) (rt : runtime W) image name protocol ports volumes
         clean environment (w : W) tr w1 installed w2,
    import_docker rt w = (false, w1) ->
    pip_install rt w1 = (inr installed, w2) ->
    run_docker_container rt image name protocol ports volumes clean
      environment (w, tr) =
    (if installed then Raise UnboundLocalError else Ret ExitInstallError,
     (w2, tr ++ [EvImport; EvPipInstall])).
Proof.
  intros W rt image name protocol ports volumes clean environment
         w tr w1 installed w2 Himport Hpip.
  rewrite run_docker_container_steps.
  unfold load_docker, bindM, host, check_call. rewrite Himport, Hpip.
  rewrite <- app_assoc. destruct installed; reflexivity.
Qed.

Lemma missing_sdk_never_reaches_daemon_witness :
  run_docker_container (Faulty.rt false true None None None) "nginx" None
    "tcp" (PyList ["8080:80"%string]) (PyList []) false (PyList [])
    (Fake.serving, []) =
  (Raise UnboundLocalError, (Fake.serving, [] ++ [EvImport; EvPipInstall])) /\
  run_docker_container (Faulty.rt false false None None None) "nginx" None
    "tcp" (PyList ["8080:80"%string]) (PyList []) false (PyList [])
    (Fake.serving, []) =
  (Ret ExitInstallError, (Fake.serving, [] ++ [EvImport; EvPipInstall])).
Proof.
  split.
  - apply (missing_sdk_never_reaches_daemon Fake.world
             (Faulty.rt false true None None None) "nginx" None "tcp"%string
             (PyList ["8080:80"%string]) (PyList []) false (PyList [])
             Fake.serving [] Fake.serving true Fake.serving);
      reflexivity.
  - apply (missing_sdk_never_reaches_daemon Fake.world
             (Faulty.rt false false None None None) "nginx" None "tcp"%string
             (PyList ["8080:80"%string]) (PyList []) false (PyList [])
             Fake.serving [] Fake.serving false Fake.serving);
      reflexivity.
Defined.

(** ** A drain that goes through *)

Section DrainThrough.

Context {W : Type} (rt : runtime W).

(** The drain when the list call returns [cs] and every stop succeeds:
    what remains is the answer to the prune call. *)
Lemma drain_after_stops image cs (w : W) tr w1 s2 :
  cs <> [] ->
  containers_list rt image w = (inr cs, w1) ->
  stop_all rt cs (w1, tr ++ [EvList image]) = (Ret tt, s2) ->
  drain rt image (w, tr) =
  (match fst (containers_prune rt (fst s2)) with
   | inr _ => Ret tt
   | inl e => drain_outcome e
   end,
   (snd (containers_prune rt (fst s2)),
    tr ++ [EvList image] ++ map EvStop cs ++ [EvPrune])).
Proof.
  intros Hne Hlist Hstops.
  pose proof (stop_all_ok rt _ _ _ Hstops) as Htr. simpl in Htr.
  unfold drain, drain_try, try_except. rewrite bindM_sdk, Hlist.
  destruct cs as [|c cs]; [contradiction|].
  unfold bindM. rewrite Hstops. destruct s2 as [w2 tr2]. simpl in *. subst tr2.
  unfold sdk. rewrite <- !app_assoc. simpl.
  destruct (containers_prune rt w2) as [[[]|[]] w3]; reflexivity.
Qed.

End DrainThrough.

(** X4.  When containers of the image are running and every stop call
    succeeds, the drain stops each listed container once, in the order
    of the list, and then prunes once: its events are the list call,
    the stop calls and the prune call, in this order. *)
Theorem drain_stops_in_order_then_prunes :
  forall (W : Type) (rt : runtime W) image cs (w : W) tr w1 s2 w3,
    cs <> [] ->
    containers_list rt image w = (inr cs, w1) ->
    stop_all rt cs (w1, tr ++ [EvList image]) = (Ret tt, s2) ->
    containers_prune rt (fst s2) = (inr tt, w3) ->
    drain rt image (w, tr) =
    (Ret tt, (w3, tr ++ [EvList image] ++ map EvStop cs ++ [EvPrune])).
Proof.
  intros W rt image cs w tr w1 s2 w3 Hne Hlist Hstops Hprune.
  rewrite (drain_after_stops rt image cs w tr w1 s2 Hne Hlist Hstops).
  rewrite Hprune. reflexivity.
Qed.

Lemma drain_stops_in_order_then_prunes_witness :
  snd (snd (drain Fake.rt "nginx" (Fake.serving, []))) =
  [] ++ [EvList "nginx"] ++ map EvStop [Fake.c1] ++ [EvPrune].
Proof.
  rewrite (drain_stops_in_order_then_prunes Fake.world Fake.rt "nginx"
             [Fake.c1] Fake.serving [] Fake.serving
             (snd (stop_all Fake.rt [Fake.c1] (Fake.serving, [EvList "nginx"])))
             (snd (containers_prune Fake.rt
                     (fst (snd (stop_all Fake.rt [Fake.c1]
                                  (Fake.serving, [EvList "nginx"]))))))).
  - reflexivity.
  - discriminate.
  - reflexivity.
  - reflexivity.
  - reflexivity.
Defined.

(** X5.  A prune call that raises an APIError other than NotFound ends
    the call through line 86, although every container was stopped:
    nothing is pulled and nothing is run. *)
Theorem failed_prune_ends_call :
  forall (W : Type) (rt : runtime W) image name protocol ports volumes
         clean environment cs (w : W) tr w0 tr0 w1 s2 w3,
    load_docker rt (w, tr) = (Ret tt, (w0, tr0)) ->
    cs <> [] ->
    containers_list rt image w0 = (inr cs, w1) ->
    stop_all rt cs (w1, tr0 ++ [EvList image]) = (Ret tt, s2) ->
    containers_prune rt (fst s2) = (inl APIError, w3) ->
    run_docker_container rt image name protocol ports volumes clean
      environment (w, tr) =
    (Ret ExitDrainError,
     (w3, tr0 ++ [EvList image] ++ map EvStop cs ++ [EvPrune])).
Proof.
  intros W rt image name protocol ports volumes clean environment cs
         w tr w0 tr0 w1 s2 w3 Hload Hne Hlist Hstops Hprune.
  rewrite run_docker_container_steps, Hload. simpl.
  rewrite (drain_after_stops rt image cs w0 tr0 w1 s2 Hne Hlist Hstops).
  rewrite Hprune. reflexivity.
Qed.

Lemma failed_prune_ends_call_witness :
  let out := run_docker_container
               (Faulty.rt true true (Some APIError) None None) "nginx" None
               "tcp" (PyList ["8080:80"%string]) (PyList []) false (PyList [])
               (Fake.serving, []) in
  fst out = Ret ExitDrainError /\
  snd (snd out) = [EvImport; EvFromEnv; EvList "nginx"; EvStop Fake.c1; EvPrune].
Proof.
  cbv zeta.
  set (rt := Faulty.rt true true (Some APIError) None None).
  rewrite (failed_prune_ends_call Fake.world rt "nginx" None "tcp"%string
             (PyList ["8080:80"%string]) (PyList []) false (PyList [])
             [Fake.c1] Fake.serving [] Fake.serving [EvImport; EvFromEnv]
             Fake.serving
             (snd (stop_all rt [Fake.c1]
                     (Fake.serving, [EvImport; EvFromEnv; EvList "nginx"])))
             (fst (snd (stop_all rt [Fake.c1]
                     (Fake.serving, [EvImport; EvFromEnv; EvList "nginx"]))))).
  - split; reflexivity.
  - reflexivity.
  - discriminate.
  - reflexivity.
  - reflexivity.
  - reflexivity.
Defined.

(** ** Pull and run errors *)

(** X6.  When the pull call raises an APIError (NotFound included), the
    call returns through line 136 right after it and no run call is
    issued; an SDK error that is not an APIError is not caught. *)
Theorem failed_pull_never_runs :
  forall (W : Type) (rt : runtime W) image name protocol ports volumes
         clean environment (w : W) tr s0 s1 kw w2 tr2 e w3,
    load_docker rt (w, tr) = (Ret tt, s0) ->
    drain rt image s0 = (Ret tt, s1) ->
    convert_params rt "tcp" clean
      (merge_params (default_params name) ports volumes) s1 =
      (Ret kw, (w2, tr2)) ->
    images_pull rt image w2 = (inl e, w3) ->
    run_docker_container rt image name protocol ports volumes clean
      environment (w, tr) =
    (if handled e then Ret ExitPullError else Raise (Sdk e),
     (w3, tr2 ++ [EvPull image])).
Proof.
  intros W rt image name protocol ports volumes clean environment
         w tr s0 s1 kw w2 tr2 e w3 Hload Hdrain Hconv Hpull.
  rewrite run_docker_container_steps, Hload. simpl.
  rewrite Hdrain. simpl. rewrite Hconv. simpl.
  rewrite pull_step, Hpull. simpl. destruct e; reflexivity.
Qed.

Lemma failed_pull_never_runs_witness :
  let out := run_docker_container
               (Faulty.rt true true None (Some NotFound) None) "nginx" None
               "tcp" (PyList ["8080:80"%string]) (PyList []) false (PyList [])
               (Fake.idle, []) in
  fst out = Ret ExitPullError /\
  snd (snd out) = [EvImport; EvFromEnv; EvList "nginx"; EvPull "nginx"].
Proof.
  cbv zeta.
  rewrite (failed_pull_never_runs Fake.world
             (Faulty.rt true true None (Some NotFound) None) "nginx" None
             "tcp"%string (PyList ["8080:80"%string]) (PyList []) false
             (PyList []) Fake.idle []
             (Fake.idle, [EvImport; EvFromEnv])
             (Fake.idle, [EvImport; EvFromEnv; EvList "nginx"%string])
             {| kw_name := None;
                kw_ports := {[ "80/tcp"%string := "8080"%string ]};
                kw_volumes := ∅; kw_environment := ∅ |}
             Fake.idle [EvImport; EvFromEnv; EvList "nginx"%string]
             NotFound Fake.idle).
  - split; reflexivity.
  - reflexivity.
  - reflexivity.
  - vm_compute. reflexivity.
  - reflexivity.
Defined.

(** X7.  When the run call raises an APIError, the handler of line 146
    only prints: the call ends normally after one pull and one run
    call, without reporting a container.  An SDK error that is not an
    APIError is not caught. *)
Theorem failed_run_ends_normally :
  forall (W : Type) (rt : runtime W) image name protocol ports volumes
         clean environment (w : W) tr s0 s1 kw w2 tr2 w3 e w4,
    load_docker rt (w, tr) = (Ret tt, s0) ->
    drain rt image s0 = (Ret tt, s1) ->
    convert_params rt "tcp" clean
      (merge_params (default_params name) ports volumes) s1 =
      (Ret kw, (w2, tr2)) ->
    images_pull rt image w2 = (inr tt, w3) ->
    containers_run rt image true kw w3 = (inl e, w4) ->
    run_docker_container rt image name protocol ports volumes clean
      environment (w, tr) =
    (if handled e then Ret ExitRunError else Raise (Sdk e),
     (w4, tr2 ++ [EvPull image; EvRun image true kw])).
Proof.
  intros W rt image name protocol ports volumes clean environment
         w tr s0 s1 kw w2 tr2 w3 e w4 Hload Hdrain Hconv Hpull Hrun.
  rewrite run_docker_container_steps, Hload. simpl.
  rewrite Hdrain. simpl. rewrite Hconv. simpl.
  rewrite pull_step, Hpull. simpl.
  rewrite start_step, Hrun. simpl. rewrite <- app_assoc.
  destruct e; reflexivity.
Qed.

Lemma failed_run_ends_normally_witness :
  let out := run_docker_container
               (Faulty.rt true true None None (Some APIError)) "nginx" None
               "tcp" (PyList ["8080:80"%string]) (PyList []) false (PyList [])
               (Fake.idle, []) in
  fst out = Ret ExitRunError /\
  calls is_pull (snd (snd out)) = 1 /\ calls is_run (snd (snd out)) = 1.
Proof.
  cbv zeta.
  rewrite (failed_run_ends_normally Fake.world
             (Faulty.rt true true None None (Some APIError)) "nginx" None
             "tcp"%string (PyList ["8080:80"%string]) (PyList []) false
             (PyList []) Fake.idle []
             (Fake.idle, [EvImport; EvFromEnv])
             (Fake.idle, [EvImport; EvFromEnv; EvList "nginx"%string])
             {| kw_name := None;
                kw_ports := {[ "80/tcp"%string := "8080"%string ]};
                kw_volumes := ∅; kw_environment := ∅ |}
             Fake.idle [EvImport; EvFromEnv; EvList "nginx"%string]
             Fake.idle APIError Fake.idle).
  - repeat split; reflexivity.
  - reflexivity.
  - reflexivity.
  - vm_compute. reflexivity.
  - reflexivity.
  - reflexivity.
Defined.

(** ** A call that goes through *)

Section Through.

Context {W : Type} (rt : runtime W).

(** Without directory tests the volume loop is a plain fold. *)
Lemma volume_loop_unchecked (l : list string) :
  Forall (fun volume => contains ":" volume = true) l ->
  forall d s,
    for_fold l (volume_step rt false) d s =
    (Ret (foldl (fun d volume =>
                   <[token0 ":" volume :=
                       {| bind := token1 ":" volume; mode := "rw" |}]> d) d l),
     s).
Proof.
  induction 1 as [|v l Hv _ IH]; intros d s; simpl; [reflexivity|].
  unfold bindM at 1.
  assert (Hstep : volume_step rt false v d s =
                  (Ret (<[token0 ":" v :=
                            {| bind := token1 ":" v; mode := "rw" |}]> d), s)).
  { unfold volume_step, bindM, token0, token1.
    destruct (split_with _ _ Hv) as (h & c & rest & ->). reflexivity. }
  rewrite Hstep. apply IH.
Qed.

Lemma convert_params_plain protocol p pl vl s :
  iter (p_ports p) = inr pl ->
  Forall (fun port => contains ":" port = true) pl ->
  iter (p_volumes p) = inr vl ->
  Forall (fun volume => contains ":" volume = true) vl ->
  p_environment p = PyList [] ->
  convert_params rt protocol false p s =
  (Ret {| kw_name := p_name p;
          kw_ports := ports_of protocol pl;
          kw_volumes := volumes_of vl;
          kw_environment := ∅ |}, s).
Proof.
  intros Hp Hpl Hv Hvl He.
  unfold convert_params, convert_volumes, convert_ports, convert_environment.
  rewrite Hp, Hv, He. simpl.
  rewrite (fold_exn_port_step protocol pl Hpl ∅).
  unfold bindM, lift, ret.
  rewrite (volume_loop_unchecked vl Hvl ∅ s). reflexivity.
Qed.

End Through.

(** X8.  A call whose drain ends normally, whose port and volume
    strings all hold a [':'], and whose pull and run calls succeed
    (directory tests off) reports the short id of the new container.
    The run call is detached, for the requested image, with the
    requested name, each port under the key made of its second token
    and ["/tcp"], each host path bound read-write to its container
    path, and an empty environment. *)
Theorem successful_call_runs_converted_params :
  forall (W : Type) (rt : runtime W) image name protocol ports volumes
         environment pl vl (w : W) tr s0 w1 tr1 w2 c w3,
    load_docker rt (w, tr) = (Ret tt, s0) ->
    drain rt image s0 = (Ret tt, (w1, tr1)) ->
    iter ports = inr pl ->
    Forall (fun port => contains ":" port = true) pl ->
    iter volumes = inr vl ->
    Forall (fun volume => contains ":" volume = true) vl ->
    images_pull rt image w1 = (inr tt, w2) ->
    let kw := {| kw_name := name;
                 kw_ports := ports_of "tcp" pl;
                 kw_volumes := volumes_of vl;
                 kw_environment := ∅ |} in
    containers_run rt image true kw w2 = (inr c, w3) ->
    run_docker_container rt image name protocol ports volumes false
      environment (w, tr) =
    (Ret (ExitRunning (short_id c)),
     (w3, tr1 ++ [EvPull image; EvRun image true kw])).
Proof.
  intros W rt image name protocol ports volumes environment pl vl
         w tr s0 w1 tr1 w2 c w3 Hload Hdrain Hp Hpl Hv Hvl Hpull kw Hrun.
  rewrite run_docker_container_steps, Hload. simpl.
  rewrite Hdrain. simpl.
  rewrite (convert_params_plain rt "tcp"
             (merge_params (default_params name) ports volumes)
             pl vl (w1, tr1) Hp Hpl Hv Hvl eq_refl).
  simpl. rewrite pull_step, Hpull. simpl.
  fold kw. rewrite start_step, Hrun. simpl. rewrite <- app_assoc. reflexivity.
Qed.

Lemma successful_call_runs_converted_params_witness :
  let out := run_docker_container Fake.rt "nginx" (Some "web"%string) "tcp"
               (PyList ["8080:80"; "8443:443"]%string)
               (PyList ["/srv/www:/usr/share/nginx/html:ro"%string])
               false (PyList ["A=1"%string]) (Fake.serving, []) in
  fst out = Ret (ExitRunning "3333cccc4444") /\
  snd (snd out) =
    [EvImport; EvFromEnv; EvList "nginx"; EvStop Fake.c1; EvPrune] ++
    [EvPull "nginx";
     EvRun "nginx" true
       {| kw_name := Some "web"%string;
          kw_ports := ports_of "tcp" ["8080:80"; "8443:443"]%string;
          kw_volumes := volumes_of ["/srv/www:/usr/share/nginx/html:ro"%string];
          kw_environment := ∅ |}].
Proof.
  cbv zeta.
  set (after_drain := snd (drain Fake.rt "nginx"
                             (Fake.serving, [EvImport; EvFromEnv]))).
  rewrite (successful_call_runs_converted_params Fake.world Fake.rt "nginx"
             (Some "web"%string) "tcp"%string
             (PyList ["8080:80"; "8443:443"]%string)
             (PyList ["/srv/www:/usr/share/nginx/html:ro"%string])
             (PyList ["A=1"%string])
             ["8080:80"; "8443:443"]%string
             ["/srv/www:/usr/share/nginx/html:ro"%string]
             Fake.serving [] (Fake.serving, [EvImport; EvFromEnv])
             (fst after_drain)
             [EvImport; EvFromEnv; EvList "nginx"%string; EvStop Fake.c1; EvPrune]
             (fst after_drain) Fake.c2
             (snd (Fake.run_ "nginx" true
                     {| kw_name := None; kw_ports := ∅; kw_volumes := ∅;
                        kw_environment := ∅ |} (fst after_drain)))).
  - split; reflexivity.
  - reflexivity.
  - reflexivity.
  - reflexivity.
  - repeat constructor.
  - reflexivity.
  - repeat constructor.
  - reflexivity.
  - reflexivity.
Defined.

(** ** What a call never does *)

Section Never.

Context {W : Type} (rt : runtime W).

Lemma emits_for_fold_in {A S} P (l : list A) (f : A -> S -> M (W:=W) S) :
  (forall x acc, In x l -> emits P (f x acc)) ->
  forall acc, emits P (for_fold l f acc).
Proof.
  induction l as [|x l IH]; intros Hf acc; simpl.
  - apply emits_ret.
  - apply emits_bind.
    + apply Hf. left. reflexivity.
    + intros acc' _. apply IH. intros y acc'' Hy. apply Hf. right. exact Hy.
Qed.

Lemma emits_load_docker_any P :
  P EvImport -> P EvPipInstall -> P EvFromEnv -> emits P (load_docker rt).
Proof.
  intros Hi Hp Hf. unfold load_docker. apply emits_bind.
  - apply emits_host, Hi.
  - intros [|] _.
    + apply emits_sdk, Hf.
    + apply emits_bind.
      * apply emits_check_call, Hp.
      * intros [|] _; [apply emits_raise|apply emits_return].
Qed.

Lemma emits_drain_any P image :
  P (EvList image) -> (forall c, P (EvStop c)) -> P EvPrune ->
  emits P (drain rt image).
Proof.
  intros Hl Hs Hp. unfold drain, drain_try, drain_except. apply emits_try.
  - apply emits_bind.
    + apply emits_sdk, Hl.
    + intros [|c cs] _; [apply emits_ret|].
      apply emits_bind.
      * apply emits_for_each. intros c'. apply emits_sdk, Hs.
      * intros _ _. apply emits_sdk, Hp.
  - intros e. destruct (is_NotFound e); [apply emits_ret|].
    destruct (is_APIError e); [apply emits_return|apply emits_raise].
Qed.

(** The directory tests of the conversion. *)
Lemma emits_convert_params_tests protocol clean p :
  emits (tests_volume_of clean (p_volumes p))
    (convert_params rt protocol clean p).
Proof.
  unfold convert_params.
  apply emits_bind; [apply emits_lift|]. intros pd _.
  apply emits_bind; [|intros vd _; apply emits_bind;
                       [apply emits_lift|intros ed _; apply emits_ret]].
  unfold convert_volumes.
  destruct (iter (p_volumes p)) as [e|l] eqn:El; simpl.
  { apply emits_bind; [apply emits_raise|]. intros l (s & s' & Hl). discriminate. }
  apply emits_bind; [apply emits_ret|]. intros l' (s & s' & Hl').
  injection Hl' as <- _.
  apply emits_for_fold_in. intros v d Hin.
  unfold volume_step, index.
  destruct (split ":" v) as [|h [|c rest]] eqn:Es; simpl.
  - apply emits_bind; [apply emits_raise|]. intros ? (s1 & s1' & Hh). discriminate.
  - apply emits_bind; [apply emits_ret|]. intros ? _.
    apply emits_bind; [apply emits_raise|]. intros ? (s1 & s1' & Hh). discriminate.
  - apply emits_bind; [apply emits_ret|]. intros h' (s1 & s1' & Hh).
    injection Hh as <- _.
    apply emits_bind; [apply emits_ret|]. intros c' _.
    apply emits_bind; [|intros _ _; apply emits_ret].
    destruct clean; [|apply emits_ret].
    apply emits_bind.
    + apply emits_check_call. intros path [= <-]. split; [reflexivity|].
      exists l, v. split; [exact El|]. split; [exact Hin|].
      unfold token0. rewrite Es. reflexivity.
    + intros [|] _; [apply emits_ret|apply emits_return].
Qed.

(** The steps after the drain, from the state the drain left. *)
Lemma tail_emits P image clean p (w1 : W) tr1 :
  emits P (convert_params rt "tcp" clean p) ->
  P (EvPull image) ->
  (forall kw, P (EvRun image true kw)) ->
  exists new,
    snd (snd (after (convert_params rt "tcp" clean p (w1, tr1))
                (fun kw s2 =>
                   after (pull rt image s2)
                     (fun _ s3 => call (start rt image kw) s3)))) =
    tr1 ++ new /\
    Forall P new.
Proof.
  intros Hc Hp Hr. destruct (Hc w1 tr1) as (n & En & Fn).
  unfold after.
  destruct (convert_params rt "tcp" clean p (w1, tr1))
    as [[kw|x|e] [w2 tr2]]; simpl in *; subst tr2;
    try (exists n; split; [reflexivity|exact Fn]).
  rewrite pull_step.
  destruct (images_pull rt image w2) as [[e|[]] w3]; simpl.
  { exists (n ++ [EvPull image]). split.
    - rewrite <- app_assoc. destruct e; reflexivity.
    - apply Forall_app. split; [exact Fn|]. repeat constructor. exact Hp. }
  rewrite start_step. simpl.
  exists (n ++ [EvPull image; EvRun image true kw]). split.
  - rewrite <- !app_assoc. reflexivity.
  - apply Forall_app. split; [exact Fn|]. repeat constructor; auto.
Qed.

(** The volumes dictionary of a successful conversion binds read-write. *)
Lemma convert_params_volumes_rw protocol clean p s kw s' :
  convert_params rt protocol clean p s = (Ret kw, s') ->
  map_Forall (fun _ b => mode b = "rw"%string) (kw_volumes kw).
Proof.
  assert (Hloop : forall l d s0 d' s0',
             map_Forall (fun _ b => mode b = "rw"%string) d ->
             for_fold l (volume_step rt clean) d s0 = (Ret d', s0') ->
             map_Forall (fun _ b => mode b = "rw"%string) d').
  { induction l as [|v l IH]; intros d s0 d' s0' Hd; simpl.
    - intros [= <- _]. exact Hd.
    - unfold bindM at 1.
      destruct (volume_step rt clean v d s0) as [[d1|x|e] s1] eqn:Es;
        try discriminate.
      apply IH. revert Es. unfold volume_step, bindM, index.
      destruct (split ":" v) as [|h [|c rest]]; simpl; try discriminate.
      destruct clean; simpl.
      + destruct s0 as [w0 tr0]. unfold check_call. simpl.
        destruct (test_d rt h w0) as [[e'|[|]] w1]; simpl; try discriminate.
        intros [= <- _]. apply map_Forall_insert_2; [reflexivity|exact Hd].
      + intros [= <- _]. apply map_Forall_insert_2; [reflexivity|exact Hd]. }
  unfold convert_params, bindM at 1, lift.
  destruct (convert_ports protocol (p_ports p)) as [e|pd]; simpl; [discriminate|].
  unfold bindM at 1, convert_volumes, bindM at 1.
  destruct (iter (p_volumes p)) as [e|l]; simpl; [discriminate|].
  destruct (for_fold l (volume_step rt clean) ∅ s) as [[vd|x|e] s1] eqn:El;
    try discriminate.
  unfold bindM.
  destruct (convert_environment (p_environment p)) as [e|ed]; simpl;
    [discriminate|].
  intros [= <- _]. simpl.
  apply (Hloop l ∅ s vd s1); [apply map_Forall_empty|exact El].
Qed.

End Never.

Section OnlyTests.

Context {W : Type} (rt : runtime W).

(** The conversion issues nothing but directory tests. *)
Lemma emits_convert_params_only_tests protocol clean p :
  emits (fun e => is_test e = true) (convert_params rt protocol clean p).
Proof.
  unfold convert_params.
  apply emits_bind; [apply emits_lift|]. intros pd _.
  apply emits_bind; [|intros vd _; apply emits_bind;
                       [apply emits_lift|intros ed _; apply emits_ret]].
  unfold convert_volumes. apply emits_bind; [apply emits_lift|]. intros l _.
  apply emits_for_fold. intros v d. unfold volume_step.
  apply emits_bind; [apply emits_lift|]. intros h _.
  apply emits_bind; [apply emits_lift|]. intros c _.
  apply emits_bind; [|intros _ _; apply emits_ret].
  destruct clean; [|apply emits_ret].
  apply emits_bind.
  - apply emits_check_call. reflexivity.
  - intros [|] _; [apply emits_ret|apply emits_return].
Qed.

End OnlyTests.

(** X9.  A call tests a directory only when [clean_host_volume_dirs] is
    true, and then only the host path (the text before the first [':'])
    of one of the given volume strings. *)
Theorem directory_tests_only_for_volumes :
  forall (W : Type) (rt : runtime W) image name protocol ports volumes
         clean environment (w : W) tr,
  exists new,
    snd (snd (run_docker_container rt image name protocol ports volumes
                clean environment (w, tr))) = tr ++ new /\
    Forall (tests_volume_of clean volumes) new.
Proof.
  intros W rt image name protocol ports volumes clean environment w tr.
  assert (Hother : forall e, is_test e = false ->
                             tests_volume_of clean volumes e).
  { intros e He path ->. discriminate. }
  revert w tr.
  change (emits (tests_volume_of clean volumes)
            (run_docker_container rt image name protocol ports volumes
               clean environment)).
  unfold run_docker_container. apply emits_call. unfold body. simpl.
  apply emits_bind.
  { apply emits_load_docker_any; apply Hother; reflexivity. }
  intros _ _. apply emits_bind.
  { apply emits_drain_any; try intros c; apply Hother; reflexivity. }
  intros _ _. apply emits_bind.
  { apply (emits_convert_params_tests rt "tcp" clean
             (merge_params (default_params name) ports volumes)). }
  intros kw _. apply emits_bind.
  { apply emits_pull, Hother. reflexivity. }
  intros _ _. apply emits_start, Hother. reflexivity.
Qed.

(** X10.  Every run call of a call is detached, names the image the
    call was given and the [name] it was given, and binds every volume
    read-write: a third token of a volume string, such as [ro], has no
    effect on the mode. *)
Theorem run_call_arguments :
  forall (W : Type) (rt : runtime W) image name protocol ports volumes
         clean environment (w : W) tr,
  exists new,
    snd (snd (run_docker_container rt image name protocol ports volumes
                clean environment (w, tr))) = tr ++ new /\
    Forall (run_as image name) new.
Proof.
  intros W rt image name protocol ports volumes clean environment w tr.
  apply (emits_run_docker_container rt (run_as image name)).
  - intros e [_ He] image' detach kw ->. discriminate.
  - intros kw s s' Hkw. split.
    + intros image' detach kw' [=].
    + intros image' detach kw' [= <- <- <-].
      split; [reflexivity|]. split; [reflexivity|]. split.
      * apply convert_params_ret in Hkw as (Hname & _ & _). exact Hname.
      * apply (convert_params_volumes_rw rt _ _ _ _ _ _ Hkw).
Qed.

(** X11.  When the list call finds no running container of the image
    (or raises NotFound), the call stops nothing and prunes nothing,
    and lists only once: after the list call come only directory
    tests, the pull and the run call. *)
Theorem nothing_running_nothing_stopped :
  forall (W : Type) (rt : runtime W) image name protocol ports volumes
         clean environment (w : W) tr w0 tr0 answer w1,
    load_docker rt (w, tr) = (Ret tt, (w0, tr0)) ->
    containers_list rt image w0 = (answer, w1) ->
    answer = inr [] \/ answer = inl NotFound ->
    exists new,
      snd (snd (run_docker_container rt image name protocol ports volumes
                  clean environment (w, tr))) = tr0 ++ EvList image :: new /\
      Forall (fun e => is_list e = false /\ is_stop e = false /\
                       is_prune e = false) new.
Proof.
  intros W rt image name protocol ports volumes clean environment
         w tr w0 tr0 answer w1 Hload Hlist Hanswer.
  rewrite run_docker_container_steps, Hload. simpl.
  assert (Hdrain : drain rt image (w0, tr0) =
                   (Ret tt, (w1, tr0 ++ [EvList image]))).
  { unfold drain, drain_try, try_except. rewrite bindM_sdk, Hlist.
    destruct Hanswer as [-> | ->]; reflexivity. }
  rewrite Hdrain. simpl.
  destruct (tail_emits rt
              (fun e => is_list e = false /\ is_stop e = false /\
                        is_prune e = false)
              image clean (merge_params (default_params name) ports volumes)
              w1 (tr0 ++ [EvList image])) as (new & Enew & Fnew).
  - eapply emits_weaken; [|apply emits_convert_params_only_tests].
    intros [] He; try discriminate. repeat split.
  - repeat split.
  - intros kw. repeat split.
  - exists new. split; [|exact Fnew].
    unfold after in *. rewrite Enew, <- app_assoc. reflexivity.
Qed.

Lemma nothing_running_nothing_stopped_witness :
  exists new,
    snd (snd (run_docker_container Fake.rt "nginx" None "tcp"
                (PyList ["8080:80"%string]) (PyList []) false (PyList [])
                (Fake.idle, []))) =
    [EvImport; EvFromEnv] ++ EvList "nginx" :: new /\
    Forall (fun e => is_list e = false /\ is_stop e = false /\
                     is_prune e = false) new.
Proof.
  apply (nothing_running_nothing_stopped Fake.world Fake.rt "nginx" None
           "tcp"%string (PyList ["8080:80"%string]) (PyList []) false
           (PyList []) Fake.idle [] Fake.idle [EvImport; EvFromEnv]
           (inr []) Fake.idle).
  - reflexivity.
  - reflexivity.
  - left. reflexivity.
Defined.

(** ** Extra command-line arguments *)

Lemma unknown_step_unpackable arg (d : gmap string string) :
  unpackable arg = true -> exists d', unknown_step arg d = inr d'.
Proof.
  unfold unpackable, unknown_step.
  destruct (split "=" arg) as [|k [|v [|x rest]]]; try discriminate. eauto.
Qed.

Lemma unknown_step_not_unpackable arg (d : gmap string string) :
  unpackable arg = false -> unknown_step arg d = inl ValueError.
Proof.
  unfold unpackable, unknown_step.
  destruct (split "=" arg) as [|k [|v [|x rest]]]; try discriminate;
    reflexivity.
Qed.

(** X12.  An extra command-line argument that does not split into
    exactly two tokens on ['='] (no ['='] at all, or more than one)
    makes line 162 raise ValueError: the script ends before the
    function is called, with no call to the host or to the daemon. *)
Theorem extra_argument_without_pair_raises :
  forall (W : Type) (rt : runtime W) (a : args.t) unknown_args
         (s : W * list event),
    Exists (fun arg => unpackable arg = false) unknown_args ->
    main rt a unknown_args s = (Raise ValueError, s).
Proof.
  intros W rt a unknown_args s Hbad.
  assert (Hd : unknown_args_dict unknown_args = inl ValueError).
  { unfold unknown_args_dict.
    apply (fold_exn_first_error _ (fun arg => unpackable arg = true)).
    - intros arg d. destruct (unpackable arg) eqn:E; [left; reflexivity|].
      right. apply unknown_step_not_unpackable, E.
    - intros arg d. apply unknown_step_unpackable.
    - eapply Exists_impl; [exact Hbad|]. simpl. intros arg ->. discriminate. }
  unfold main, bindM at 1, lift. rewrite Hd. reflexivity.
Qed.

Lemma extra_argument_without_pair_raises_witness :
  main Fake.rt (nginx (Some ["8080:80"%string]) (Some ["/srv/www:/w"%string]))
    ["--rm"%string] (Fake.idle, []) = (Raise ValueError, (Fake.idle, [])) /\
  main Fake.rt (nginx (Some ["8080:80"%string]) (Some ["/srv/www:/w"%string]))
    ["environment=A=1"%string] (Fake.idle, []) =
  (Raise ValueError, (Fake.idle, [])).
Proof.
  split.
  - apply (extra_argument_without_pair_raises Fake.world Fake.rt).
    apply Exists_cons_hd. reflexivity.
  - apply (extra_argument_without_pair_raises Fake.world Fake.rt).
    apply Exists_cons_hd. reflexivity.
Defined.

(** X13.  An extra argument [key=value] whose key is not
    [clean_host_volume_dirs] or [environment] (a parameter line 163
    passes itself, such as [ports], or no parameter at all) makes the
    call of line 163 raise TypeError before the function body runs:
    no call to the host or to the daemon is made. *)
Theorem extra_keyword_raises_type_error :
  forall (W : Type) (rt : runtime W) (a : args.t) unknown_args d k
         (s : W * list event),
    unknown_args_dict unknown_args = inr d ->
    is_Some (d !! k) ->
    free_keyword k = false ->
    main rt a unknown_args s = (Raise TypeError, s).
Proof.
  intros W rt a unknown_args d k s Hd [v Hk] Hfree.
  assert (Hkw : bind_kwargs d = inl TypeError).
  { unfold bind_kwargs.
    destruct (forallb free_keyword (map fst (map_to_list d))) eqn:E;
      [|reflexivity].
    rewrite forallb_forall in E.
    assert (Hin : In k (map fst (map_to_list d))).
    { apply in_map_iff. exists (k, v). split; [reflexivity|].
      apply list_elem_of_In, elem_of_map_to_list, Hk. }
    rewrite (E k Hin) in Hfree. discriminate. }
  unfold main, bindM at 1, lift. rewrite Hd. simpl.
  unfold bindM at 1. rewrite Hkw. reflexivity.
Qed.

Lemma extra_keyword_raises_type_error_witness :
  main Fake.rt (nginx (Some ["8080:80"%string]) (Some ["/srv/www:/w"%string]))
    ["ports=9090:90"%string] (Fake.idle, []) = (Raise TypeError, (Fake.idle, [])).
Proof.
  apply (extra_keyword_raises_type_error Fake.world Fake.rt
           (nginx (Some ["8080:80"%string]) (Some ["/srv/www:/w"%string]))
           ["ports=9090:90"%string]
           {[ "ports"%string := "9090:90"%string ]} "ports"%string).
  - vm_compute. reflexivity.
  - exists "9090:90"%string. vm_compute. reflexivity.
  - reflexivity.
Defined.

(** X14.  The extra argument [clean_host_volume_dirs=<text>] turns the
    directory tests on for the first call whenever the text is not
    empty, whatever it says (["False"] included), since the function
    only tests the truth value of the string; the second call of line
    165 runs without them. *)
Theorem any_text_turns_directory_tests_on :
  forall (W : Type) (rt : runtime W) (a : args.t) text (s : W * list event),
    contains "=" text = false ->
    text <> EmptyString ->
    main rt a [("clean_host_volume_dirs=" +:+ text)%string] s =
    (do first <-
        run_docker_container rt (args.image_name a) (args.name a)
          (args.protocol a) (of_option (args.port a))
          (of_option (args.volume a)) true (PyList []) ;;
     do second <-
        run_docker_container rt (args.image_name a) (args.name a)
          (args.protocol a) (of_option (args.port a))
          (of_option (args.volume a)) false (PyList []) ;;
     ret (first, second)) s.
Proof.
  intros W rt a text s Hno Hne.
  assert (Hd : unknown_args_dict [("clean_host_volume_dirs=" +:+ text)%string] =
               inr {[ "clean_host_volume_dirs"%string := text ]}).
  { unfold unknown_args_dict, fold_exn, unknown_step.
    change ("clean_host_volume_dirs=" +:+ text)%string
      with ("clean_host_volume_dirs" +:+ String "=" text)%string.
    rewrite (split_pair "=" "clean_host_volume_dirs" text eq_refl Hno).
    rewrite insert_empty. reflexivity. }
  assert (Hkw : bind_kwargs {[ "clean_host_volume_dirs"%string := text ]} =
                inr (true, PyList [])).
  { unfold bind_kwargs. rewrite map_to_list_singleton. simpl.
    rewrite lookup_singleton_eq, lookup_singleton_ne by discriminate.
    destruct text; [contradiction|reflexivity]. }
  unfold main, bindM at 1, lift. rewrite Hd. simpl.
  unfold bindM at 1. rewrite Hkw. reflexivity.
Qed.

Lemma any_text_turns_directory_tests_on_witness :
  let out := main Fake.rt
               (nginx (Some ["8080:80"%string]) (Some ["/srv/data:/data"%string]))
               [("clean_host_volume_dirs=" +:+ "False")%string]
               (Fake.idle, []) in
  fst out = Ret (ExitVolumeMissing "/srv/data", ExitRunning "1111aaaa2222") /\
  calls is_test (snd (snd out)) = 1.
Proof.
  cbv zeta.
  rewrite (any_text_turns_directory_tests_on Fake.world Fake.rt
             (nginx (Some ["8080:80"%string]) (Some ["/srv/data:/data"%string]))
             "False"%string (Fake.idle, []) eq_refl).
  - vm_compute. split; reflexivity.
  - discriminate.
Defined.

(** ** Port strings that collide *)

Lemma length_append (s t : string) :
  String.length (s +:+ t) = String.length s + String.length t.
Proof. induction s as [|a s IH]; simpl; [reflexivity|]. rewrite IH. reflexivity. Qed.

Lemma append_cancel_r (t s1 s2 : string) :
  (s1 +:+ t)%string = (s2 +:+ t)%string -> s1 = s2.
Proof.
  revert s2. induction s1 as [|a s1 IH]; intros [|b s2] H; simpl in *.
  - reflexivity.
  - apply (f_equal String.length) in H.
    rewrite ?length_append in H. simpl in H. rewrite ?length_append in H. lia.
  - apply (f_equal String.length) in H.
    rewrite ?length_append in H. simpl in H. rewrite ?length_append in H. lia.
  - injection H as -> H. f_equal. apply IH, H.
Qed.

Lemma lookup_port_fold_other protocol (k : string) (l : list string) :
  Forall (fun port => token1 ":" port <> k) l ->
  forall d : gmap string string,
    foldl (fun d port =>
             <[token1 ":" port +:+ "/" +:+ protocol := token0 ":" port]> d) d l
      !! (k +:+ "/" +:+ protocol)%string =
    d !! (k +:+ "/" +:+ protocol)%string.
Proof.
  induction 1 as [|port l Hne _ IH]; intros d; simpl; [reflexivity|].
  rewrite IH. apply lookup_insert_ne.
  intros Heq. apply Hne. apply (append_cancel_r _ _ _ Heq).
Qed.

(** X15.  When several port strings name the same container port (the
    same second token), the port loop keeps one entry for it, with the
    host port of the last such string: the earlier host ports are
    dropped without an error. *)
Theorem duplicate_container_port_last_wins (protocol : string) (l : list string) :
  Forall (fun port => contains ":" port = true) l ->
  exists d,
    convert_ports protocol (PyList l) = inr d /\
    forall pre port post,
      l = pre ++ port :: post ->
      Forall (fun port' => token1 ":" port' <> token1 ":" port) post ->
      d !! (token1 ":" port +:+ "/" +:+ protocol)%string =
      Some (token0 ":" port).
Proof.
  intros Hl. exists (ports_of protocol l). split.
  - unfold convert_ports. simpl. apply fold_exn_port_step, Hl.
  - intros pre port post -> Hpost. unfold ports_of.
    rewrite foldl_app. simpl.
    rewrite (lookup_port_fold_other protocol _ _ Hpost).
    apply lookup_insert_eq.
Qed.

Lemma duplicate_container_port_last_wins_witness :
  exists d,
    convert_ports "tcp" (PyList ["8080:80"; "9090:80"]%string) = inr d /\
    d !! "80/tcp"%string = Some "9090"%string.
Proof.
  destruct (duplicate_container_port_last_wins "tcp"
              ["8080:80"; "9090:80"]%string) as (d & Hd & Hlast).
  - repeat constructor.
  - exists d. split; [exact Hd|].
    apply (Hlast ["8080:80"%string] "9090:80"%string []); [reflexivity|constructor].
Defined.

(** ** A string where a list is expected *)

Lemma chars_app (s t : string) : chars (s +:+ t) = chars s ++ chars t.
Proof. induction s as [|a s IH]; simpl; [reflexivity|]. rewrite IH. reflexivity. Qed.

(** X16.  A string passed as [ports] instead of a list is iterated
    character by character: as soon as it holds a character other than
    [':'], the port loop raises IndexError, since a single character
    has no second token. *)
Theorem string_as_ports_raises (protocol : string) (pre post : string) (c : ascii) :
  c <> ":"%char ->
  convert_ports protocol (PyStr (pre +:+ String c post)) = inl IndexError.
Proof.
  intros Hc. apply convert_ports_malformed.
  exists (chars (pre +:+ String c post)). split; [reflexivity|].
  rewrite chars_app. apply Exists_app. right. apply Exists_cons_hd.
  simpl. destruct (Ascii.eqb_spec c ":"%char) as [->|_]; [contradiction|].
  reflexivity.
Qed.

Lemma string_as_ports_raises_witness :
  convert_ports "tcp" (PyStr ("" +:+ String "8" "080:80")) = inl IndexError.
Proof. apply string_as_ports_raises. discriminate. Defined.

(** ** The client cannot be built *)

(** X17.  An error raised by [docker.from_env()] (line 66, outside
    every [try]) is not caught, whatever its class: the call ends with
    that exception right after the import, before the list call. *)
Theorem from_env_error_not_caught :
  forall (W : Type) (rt : runtime W) image name protocol ports volumes
         clean environment (w : W) tr w1 e w2,
    import_docker rt w = (true, w1) ->
    from_env rt w1 = (inl e, w2) ->
    run_docker_container rt image name protocol ports volumes clean
      environment (w, tr) =
    (Raise (Sdk e), (w2, tr ++ [EvImport; EvFromEnv])).
Proof.
  intros W rt image name protocol ports volumes clean environment
         w tr w1 e w2 Himport Henv.
  rewrite run_docker_container_steps.
  unfold load_docker, bindM, host, sdk. rewrite Himport, Henv.
  rewrite <- app_assoc. reflexivity.
Qed.

Lemma from_env_error_not_caught_witness :
  let rt := {| import_docker := import_docker Fake.rt;
               pip_install := pip_install Fake.rt;
               test_d := test_d Fake.rt;
               from_env := fun w => (inl APIError, w);
               containers_list := containers_list Fake.rt;
               container_stop := container_stop Fake.rt;
               containers_prune := containers_prune Fake.rt;
               images_pull := images_pull Fake.rt;
               containers_run := containers_run Fake.rt |} in
  run_docker_container rt "nginx" None "tcp" (PyList ["8080:80"%string])
    (PyList []) false (PyList []) (Fake.serving, []) =
  (Raise (Sdk APIError), (Fake.serving, [] ++ [EvImport; EvFromEnv])).
Proof.
  intros rt.
  apply (from_env_error_not_caught Fake.world rt "nginx" None "tcp"%string
           (PyList ["8080:80"%string]) (PyList []) false (PyList [])
           Fake.serving [] Fake.serving APIError Fake.serving);
    reflexivity.
Defined.

(** ** Missing host directories *)

Section Missing.

Context {W : Type} (rt : runtime W).




End Missing.



